(** * Aircraft aerodynamics: atmosphere, forces and the time-stepping integrator

    A shallow embedding of the Python package [aerodynamics]
    ([constants.py], [aircraft_params.py], [atmosphere.py], [forces.py],
    [simulation.py]) and of the time-stepping loop of [run_simulation.py],
    with the properties of it that the specification states and further
    ones that the code shows.

    Number model.  A Python [float] is read as a real number: rounding,
    infinities and NaN are outside this model.  What is kept of the Python
    arithmetic is every way it raises on finite floats: [x / y] raises
    [ZeroDivisionError] when [y] is zero; [x ** y] raises it for a zero
    base with a negative exponent, raises [OverflowError] when its value
    is beyond the range of a float, and leaves the floats (its value is a
    complex number) for a negative base with a fractional exponent.  A
    product is the exact product, except where it is a divisor: there it
    is the float product, which is zero once it underflows.  Integer
    literals of the source ([0], [11000], [101325]) are the same reals as
    their float spellings. *)

From Stdlib Require Import Reals Lra Lia Factorial String List.
Import ListNotations.

Local Open Scope R_scope.

(** ** Outcomes of a Python expression *)

(** [ZeroDivisionError] and [OverflowError] are the Python exceptions.
    [ComplexResult] marks the one other way a float expression of this
    package could fail to give a float: a power whose value is a complex
    number. *)
Inductive exn : Type :=
| ZeroDivisionError
| OverflowError
| ComplexResult.

Inductive result (A : Type) : Type :=
| Ok (a : A)
| Raise (e : exn).

Arguments Ok {A} a.
Arguments Raise {A} e.

Definition result_bind {A B : Type} (m : result A) (k : A -> result B)
  : result B :=
  match m with
  | Ok a => k a
  | Raise e => Raise e
  end.

Declare Scope py_scope.
Delimit Scope py_scope with py.

Notation "x <- m ;; k" := (result_bind m (fun x => k))
  (at level 61, m at next level, right associativity) : py_scope.

(** [x / y] on floats. *)
Definition py_div (x y : R) : result R :=
  if Req_dec_T y 0 then Raise ZeroDivisionError else Ok (x / y).

(** The range of a binary64 float under rounding to nearest: a value of
    magnitude [2^1024 - 2^970] or more rounds to an infinity, one of
    magnitude [2^-1075] or less rounds to zero. *)
Definition float_overflow_Z : Z := Eval vm_compute in (2 ^ 1024 - 2 ^ 970)%Z.
Definition FLOAT_OVERFLOW : R := IZR float_overflow_Z.
Definition float_underflow_Z : Z := Eval vm_compute in (2 ^ 1075)%Z.
Definition FLOAT_UNDERFLOW : R := / IZR float_underflow_Z.

(** [x * y] on floats where the product is a divisor: zero when it
    underflows, the product otherwise. *)
Definition float_mul (x y : R) : R :=
  if Rle_dec (Rabs (x * y)) FLOAT_UNDERFLOW then 0 else x * y.

(** What CPython makes of the value of a float power: an infinite result
    is an [OverflowError]. *)
Definition pow_result (r : R) : result R :=
  if Rle_dec FLOAT_OVERFLOW (Rabs r) then Raise OverflowError else Ok r.

(** [x ** y] on floats, after CPython's [float_pow]. *)
Definition py_pow (x y : R) : result R :=
  if Req_dec_T y 0 then Ok 1
  else if Req_dec_T x 0 then
    if Rlt_dec y 0 then Raise ZeroDivisionError else Ok 0
  else if Rlt_dec x 0 then
    if Req_dec_T (frac_part y) 0 then pow_result (powerRZ x (Int_part y))
    else Raise ComplexResult
  else pow_result (Rpower x y).

(** [max(a, b)] and [min(a, b)] of two arguments: the first one is kept
    unless the second is strictly larger (smaller). *)
Definition py_max (a b : R) : R := if Rlt_dec a b then b else a.
Definition py_min (a b : R) : R := if Rlt_dec b a then b else a.

(** ** constants.py *)

Definition GRAVITY : R := 9.81.
Definition RHO_SEA_LEVEL : R := 1.225.
Definition TEMP_SEA_LEVEL : R := 288.15.
Definition LAPSE_RATE : R := 0.0065.
Definition GAS_CONSTANT : R := 287.05.
Definition PRESSURE_SEA_LEVEL : R := 101325.

(** ** atmosphere.py *)

Local Open Scope py_scope.

Definition air_density (altitude_m : R) : result R :=
  if Rle_dec altitude_m 0 then Ok RHO_SEA_LEVEL
  else if Rgt_dec altitude_m 11000 then
    let T_11 := TEMP_SEA_LEVEL - LAPSE_RATE * 11000 in
    ratio <- py_div T_11 TEMP_SEA_LEVEL ;;
    expo <- py_div (GRAVITY * 0.0289644) (GAS_CONSTANT * LAPSE_RATE) ;;
    pw <- py_pow ratio (expo - 1) ;;
    let rho_11 := RHO_SEA_LEVEL * pw in
    decay <- py_pow 2.718 (-0.000157 * (altitude_m - 11000)) ;;
    Ok (rho_11 * decay)
  else
    let T := TEMP_SEA_LEVEL - LAPSE_RATE * altitude_m in
    ratio <- py_div T TEMP_SEA_LEVEL ;;
    expo <- py_div (GRAVITY * 0.0289644) (GAS_CONSTANT * LAPSE_RATE) ;;
    pw <- py_pow ratio (expo - 1) ;;
    Ok (RHO_SEA_LEVEL * pw).

Definition pressure (altitude_m : R) : result R :=
  if Rle_dec altitude_m 0 then Ok PRESSURE_SEA_LEVEL
  else
    let T := TEMP_SEA_LEVEL - LAPSE_RATE * py_min altitude_m 11000 in
    ratio <- py_div T TEMP_SEA_LEVEL ;;
    expo <- py_div (- GRAVITY) (GAS_CONSTANT * LAPSE_RATE) ;;
    pw <- py_pow ratio expo ;;
    Ok (PRESSURE_SEA_LEVEL * pw).

(** ** Python dictionaries with string keys

    A [dict] as the list of its items in insertion order.  [d[k] = v]
    replaces the value of a key that is present, in place, and appends a
    new key at the end; [d.update(other)] does so for the items of [other]
    in their order. *)

Definition dict : Type := list (string * R).

Fixpoint dict_setitem (k : string) (v : R) (d : dict) : dict :=
  match d with
  | [] => [(k, v)]
  | (k', v') :: d' =>
      if String.eqb k' k then (k, v) :: d' else (k', v') :: dict_setitem k v d'
  end.

Definition dict_update (d other : dict) : dict :=
  fold_left (fun acc kv => dict_setitem (fst kv) (snd kv) acc) other d.

Fixpoint dict_get (k : string) (d : dict) : option R :=
  match d with
  | [] => None
  | (k', v') :: d' => if String.eqb k' k then Some v' else dict_get k d'
  end.

(** A keyword argument of a call, with the default of the parameter. *)
Definition kwarg (k : string) (default : R) (d : dict) : R :=
  match dict_get k d with
  | Some v => v
  | None => default
  end.

(** ** aircraft_params.py *)

Module AircraftParams.

Record t : Type := mk {
  mass_kg : R;
  wing_area_m2 : R;
  aspect_ratio : R;
  cl_alpha : R;
  cd0 : R;
  oswald_efficiency : R;
  max_thrust_N : R;
  thrust_ratio : R;
  altitude_m : R;
  airspeed_m_s : R;
  angle_of_attack_deg : R
}.

(** The dataclass defaults. *)
Definition default : t :=
  {| mass_kg := 1000.0;
     wing_area_m2 := 20.0;
     aspect_ratio := 8.0;
     cl_alpha := 5.5;
     cd0 := 0.025;
     oswald_efficiency := 0.82;
     max_thrust_N := 5000.0;
     thrust_ratio := 1.0;
     altitude_m := 0.0;
     airspeed_m_s := 50.0;
     angle_of_attack_deg := 3.0 |}.

(** Attribute assignment [params.f = v], one function per field that the
    package or its callers assign. *)
Definition set_mass_kg (v : R) (r : t) : t :=
  {| mass_kg := v;
     wing_area_m2 := wing_area_m2 r;
     aspect_ratio := aspect_ratio r;
     cl_alpha := cl_alpha r;
     cd0 := cd0 r;
     oswald_efficiency := oswald_efficiency r;
     max_thrust_N := max_thrust_N r;
     thrust_ratio := thrust_ratio r;
     altitude_m := altitude_m r;
     airspeed_m_s := airspeed_m_s r;
     angle_of_attack_deg := angle_of_attack_deg r |}.

Definition set_max_thrust_N (v : R) (r : t) : t :=
  {| mass_kg := mass_kg r;
     wing_area_m2 := wing_area_m2 r;
     aspect_ratio := aspect_ratio r;
     cl_alpha := cl_alpha r;
     cd0 := cd0 r;
     oswald_efficiency := oswald_efficiency r;
     max_thrust_N := v;
     thrust_ratio := thrust_ratio r;
     altitude_m := altitude_m r;
     airspeed_m_s := airspeed_m_s r;
     angle_of_attack_deg := angle_of_attack_deg r |}.

Definition set_thrust_ratio (v : R) (r : t) : t :=
  {| mass_kg := mass_kg r;
     wing_area_m2 := wing_area_m2 r;
     aspect_ratio := aspect_ratio r;
     cl_alpha := cl_alpha r;
     cd0 := cd0 r;
     oswald_efficiency := oswald_efficiency r;
     max_thrust_N := max_thrust_N r;
     thrust_ratio := v;
     altitude_m := altitude_m r;
     airspeed_m_s := airspeed_m_s r;
     angle_of_attack_deg := angle_of_attack_deg r |}.

Definition set_altitude_m (v : R) (r : t) : t :=
  {| mass_kg := mass_kg r;
     wing_area_m2 := wing_area_m2 r;
     aspect_ratio := aspect_ratio r;
     cl_alpha := cl_alpha r;
     cd0 := cd0 r;
     oswald_efficiency := oswald_efficiency r;
     max_thrust_N := max_thrust_N r;
     thrust_ratio := thrust_ratio r;
     altitude_m := v;
     airspeed_m_s := airspeed_m_s r;
     angle_of_attack_deg := angle_of_attack_deg r |}.

Definition set_airspeed_m_s (v : R) (r : t) : t :=
  {| mass_kg := mass_kg r;
     wing_area_m2 := wing_area_m2 r;
     aspect_ratio := aspect_ratio r;
     cl_alpha := cl_alpha r;
     cd0 := cd0 r;
     oswald_efficiency := oswald_efficiency r;
     max_thrust_N := max_thrust_N r;
     thrust_ratio := thrust_ratio r;
     altitude_m := altitude_m r;
     airspeed_m_s := v;
     angle_of_attack_deg := angle_of_attack_deg r |}.

Definition set_angle_of_attack_deg (v : R) (r : t) : t :=
  {| mass_kg := mass_kg r;
     wing_area_m2 := wing_area_m2 r;
     aspect_ratio := aspect_ratio r;
     cl_alpha := cl_alpha r;
     cd0 := cd0 r;
     oswald_efficiency := oswald_efficiency r;
     max_thrust_N := max_thrust_N r;
     thrust_ratio := thrust_ratio r;
     altitude_m := altitude_m r;
     airspeed_m_s := airspeed_m_s r;
     angle_of_attack_deg := v |}.

Definition set_wing_area_m2 (v : R) (r : t) : t :=
  {| mass_kg := mass_kg r;
     wing_area_m2 := v;
     aspect_ratio := aspect_ratio r;
     cl_alpha := cl_alpha r;
     cd0 := cd0 r;
     oswald_efficiency := oswald_efficiency r;
     max_thrust_N := max_thrust_N r;
     thrust_ratio := thrust_ratio r;
     altitude_m := altitude_m r;
     airspeed_m_s := airspeed_m_s r;
     angle_of_attack_deg := angle_of_attack_deg r |}.

Definition set_aspect_ratio (v : R) (r : t) : t :=
  {| mass_kg := mass_kg r;
     wing_area_m2 := wing_area_m2 r;
     aspect_ratio := v;
     cl_alpha := cl_alpha r;
     cd0 := cd0 r;
     oswald_efficiency := oswald_efficiency r;
     max_thrust_N := max_thrust_N r;
     thrust_ratio := thrust_ratio r;
     altitude_m := altitude_m r;
     airspeed_m_s := airspeed_m_s r;
     angle_of_attack_deg := angle_of_attack_deg r |}.

Definition set_cl_alpha (v : R) (r : t) : t :=
  {| mass_kg := mass_kg r;
     wing_area_m2 := wing_area_m2 r;
     aspect_ratio := aspect_ratio r;
     cl_alpha := v;
     cd0 := cd0 r;
     oswald_efficiency := oswald_efficiency r;
     max_thrust_N := max_thrust_N r;
     thrust_ratio := thrust_ratio r;
     altitude_m := altitude_m r;
     airspeed_m_s := airspeed_m_s r;
     angle_of_attack_deg := angle_of_attack_deg r |}.

Definition set_cd0 (v : R) (r : t) : t :=
  {| mass_kg := mass_kg r;
     wing_area_m2 := wing_area_m2 r;
     aspect_ratio := aspect_ratio r;
     cl_alpha := cl_alpha r;
     cd0 := v;
     oswald_efficiency := oswald_efficiency r;
     max_thrust_N := max_thrust_N r;
     thrust_ratio := thrust_ratio r;
     altitude_m := altitude_m r;
     airspeed_m_s := airspeed_m_s r;
     angle_of_attack_deg := angle_of_attack_deg r |}.

Definition set_oswald_efficiency (v : R) (r : t) : t :=
  {| mass_kg := mass_kg r;
     wing_area_m2 := wing_area_m2 r;
     aspect_ratio := aspect_ratio r;
     cl_alpha := cl_alpha r;
     cd0 := cd0 r;
     oswald_efficiency := v;
     max_thrust_N := max_thrust_N r;
     thrust_ratio := thrust_ratio r;
     altitude_m := altitude_m r;
     airspeed_m_s := airspeed_m_s r;
     angle_of_attack_deg := angle_of_attack_deg r |}.

(** The names of the dataclass fields, in declaration order. *)
Definition field_names : list string :=
  ["mass_kg"; "wing_area_m2"; "aspect_ratio"; "cl_alpha"; "cd0";
   "oswald_efficiency"; "max_thrust_N"; "thrust_ratio"; "altitude_m";
   "airspeed_m_s"; "angle_of_attack_deg"]%string.

Definition is_field (k : string) : bool := existsb (String.eqb k) field_names.

(** What a call of the constructor gives: the new record, or the
    [TypeError] of an unexpected keyword argument. *)
Inductive construction : Type :=
| Constructed (p : t)
| TypeError.

(** The constructor called with the items of [d] as keyword arguments,
    that is the [__init__] that [@dataclass] generates:
    every keyword has to be a field, and a field that is not given takes
    its default. *)
Definition new (d : dict) : construction :=
  if forallb (fun kv => is_field (fst kv)) d then
    Constructed
      {| mass_kg := kwarg "mass_kg" 1000.0 d;
         wing_area_m2 := kwarg "wing_area_m2" 20.0 d;
         aspect_ratio := kwarg "aspect_ratio" 8.0 d;
         cl_alpha := kwarg "cl_alpha" 5.5 d;
         cd0 := kwarg "cd0" 0.025 d;
         oswald_efficiency := kwarg "oswald_efficiency" 0.82 d;
         max_thrust_N := kwarg "max_thrust_N" 5000.0 d;
         thrust_ratio := kwarg "thrust_ratio" 1.0 d;
         altitude_m := kwarg "altitude_m" 0.0 d;
         airspeed_m_s := kwarg "airspeed_m_s" 50.0 d;
         angle_of_attack_deg := kwarg "angle_of_attack_deg" 3.0 d |}
  else TypeError.

Definition copy_with (self : t) (kwargs : dict) : construction :=
  let d : dict :=
    [("mass_kg", mass_kg self);
     ("wing_area_m2", wing_area_m2 self);
     ("aspect_ratio", aspect_ratio self);
     ("cl_alpha", cl_alpha self);
     ("cd0", cd0 self);
     ("oswald_efficiency", oswald_efficiency self);
     ("max_thrust_N", max_thrust_N self);
     ("thrust_ratio", thrust_ratio self);
     ("altitude_m", altitude_m self);
     ("airspeed_m_s", airspeed_m_s self);
     ("angle_of_attack_deg", angle_of_attack_deg self)]%string in
  let d := dict_update d kwargs in
  new d.

(** Attribute read [params.f] by the name of the field. *)
Definition getattr (k : string) (r : t) : option R :=
  if String.eqb k "mass_kg" then Some (mass_kg r)
  else if String.eqb k "wing_area_m2" then Some (wing_area_m2 r)
  else if String.eqb k "aspect_ratio" then Some (aspect_ratio r)
  else if String.eqb k "cl_alpha" then Some (cl_alpha r)
  else if String.eqb k "cd0" then Some (cd0 r)
  else if String.eqb k "oswald_efficiency" then Some (oswald_efficiency r)
  else if String.eqb k "max_thrust_N" then Some (max_thrust_N r)
  else if String.eqb k "thrust_ratio" then Some (thrust_ratio r)
  else if String.eqb k "altitude_m" then Some (altitude_m r)
  else if String.eqb k "airspeed_m_s" then Some (airspeed_m_s r)
  else if String.eqb k "angle_of_attack_deg" then Some (angle_of_attack_deg r)
  else None.

End AircraftParams.

(** ** forces.py *)

(** [math.radians]. *)
Definition radians (x : R) : R := x * (PI / 180).

Definition lift_coefficient (angle_of_attack_rad cl_alpha : R) : R :=
  cl_alpha * angle_of_attack_rad.

Definition drag_coefficient (cl cd0 aspect_ratio oswald_efficiency : R)
  : result R :=
  if Rle_dec aspect_ratio 0 then Ok cd0
  else if Rle_dec oswald_efficiency 0 then Ok cd0
  else
    sq <- py_pow cl 2 ;;
    induced <- py_div sq (float_mul (float_mul PI oswald_efficiency)
                            aspect_ratio) ;;
    Ok (cd0 + induced).

Definition dynamic_pressure (rho velocity : R) : R :=
  0.5 * rho * velocity * velocity.

Definition compute_lift (params : AircraftParams.t) : result R :=
  rho <- air_density (AircraftParams.altitude_m params) ;;
  let alpha_rad := radians (AircraftParams.angle_of_attack_deg params) in
  let cl := lift_coefficient alpha_rad (AircraftParams.cl_alpha params) in
  let q := dynamic_pressure rho (AircraftParams.airspeed_m_s params) in
  Ok (q * AircraftParams.wing_area_m2 params * cl).

Definition compute_drag (params : AircraftParams.t) : result R :=
  rho <- air_density (AircraftParams.altitude_m params) ;;
  let alpha_rad := radians (AircraftParams.angle_of_attack_deg params) in
  let cl := lift_coefficient alpha_rad (AircraftParams.cl_alpha params) in
  cd <- drag_coefficient cl (AircraftParams.cd0 params)
          (AircraftParams.aspect_ratio params)
          (AircraftParams.oswald_efficiency params) ;;
  let q := dynamic_pressure rho (AircraftParams.airspeed_m_s params) in
  Ok (q * AircraftParams.wing_area_m2 params * cd).

Definition compute_thrust (params : AircraftParams.t) : R :=
  AircraftParams.max_thrust_N params
  * py_max 0.0 (py_min 1.0 (AircraftParams.thrust_ratio params)).

Definition compute_weight (params : AircraftParams.t) : R :=
  AircraftParams.mass_kg params * GRAVITY.

Definition compute_thrust_required (params : AircraftParams.t) : result R :=
  compute_drag params.

(** ** simulation.py *)

Module SimulationState.

Record t : Type := mk {
  altitude_m : R;
  airspeed_m_s : R;
  angle_of_attack_deg : R;
  time_s : R;
  lift_N : R;
  drag_N : R;
  thrust_N : R;
  weight_N : R;
  acceleration_m_s2 : R
}.

(** Attribute assignment [state.f = v]. *)
Definition set_altitude_m (v : R) (r : t) : t :=
  {| altitude_m := v;
     airspeed_m_s := airspeed_m_s r;
     angle_of_attack_deg := angle_of_attack_deg r;
     time_s := time_s r;
     lift_N := lift_N r;
     drag_N := drag_N r;
     thrust_N := thrust_N r;
     weight_N := weight_N r;
     acceleration_m_s2 := acceleration_m_s2 r |}.

Definition set_airspeed_m_s (v : R) (r : t) : t :=
  {| altitude_m := altitude_m r;
     airspeed_m_s := v;
     angle_of_attack_deg := angle_of_attack_deg r;
     time_s := time_s r;
     lift_N := lift_N r;
     drag_N := drag_N r;
     thrust_N := thrust_N r;
     weight_N := weight_N r;
     acceleration_m_s2 := acceleration_m_s2 r |}.

Definition set_time_s (v : R) (r : t) : t :=
  {| altitude_m := altitude_m r;
     airspeed_m_s := airspeed_m_s r;
     angle_of_attack_deg := angle_of_attack_deg r;
     time_s := v;
     lift_N := lift_N r;
     drag_N := drag_N r;
     thrust_N := thrust_N r;
     weight_N := weight_N r;
     acceleration_m_s2 := acceleration_m_s2 r |}.

Definition set_lift_N (v : R) (r : t) : t :=
  {| altitude_m := altitude_m r;
     airspeed_m_s := airspeed_m_s r;
     angle_of_attack_deg := angle_of_attack_deg r;
     time_s := time_s r;
     lift_N := v;
     drag_N := drag_N r;
     thrust_N := thrust_N r;
     weight_N := weight_N r;
     acceleration_m_s2 := acceleration_m_s2 r |}.

Definition set_drag_N (v : R) (r : t) : t :=
  {| altitude_m := altitude_m r;
     airspeed_m_s := airspeed_m_s r;
     angle_of_attack_deg := angle_of_attack_deg r;
     time_s := time_s r;
     lift_N := lift_N r;
     drag_N := v;
     thrust_N := thrust_N r;
     weight_N := weight_N r;
     acceleration_m_s2 := acceleration_m_s2 r |}.

Definition set_thrust_N (v : R) (r : t) : t :=
  {| altitude_m := altitude_m r;
     airspeed_m_s := airspeed_m_s r;
     angle_of_attack_deg := angle_of_attack_deg r;
     time_s := time_s r;
     lift_N := lift_N r;
     drag_N := drag_N r;
     thrust_N := v;
     weight_N := weight_N r;
     acceleration_m_s2 := acceleration_m_s2 r |}.

Definition set_weight_N (v : R) (r : t) : t :=
  {| altitude_m := altitude_m r;
     airspeed_m_s := airspeed_m_s r;
     angle_of_attack_deg := angle_of_attack_deg r;
     time_s := time_s r;
     lift_N := lift_N r;
     drag_N := drag_N r;
     thrust_N := thrust_N r;
     weight_N := v;
     acceleration_m_s2 := acceleration_m_s2 r |}.

Definition set_acceleration_m_s2 (v : R) (r : t) : t :=
  {| altitude_m := altitude_m r;
     airspeed_m_s := airspeed_m_s r;
     angle_of_attack_deg := angle_of_attack_deg r;
     time_s := time_s r;
     lift_N := lift_N r;
     drag_N := drag_N r;
     thrust_N := thrust_N r;
     weight_N := weight_N r;
     acceleration_m_s2 := v |}.

End SimulationState.

Module AerodynamicsSimulator.

(** The simulator object.  [params] is the caller's record itself, not a
    copy: the constructor stores the reference, so what a method writes to
    [params] is what the caller reads afterwards.  [state] is the one state
    object that [step] mutates and returns. *)
Record t : Type := mk {
  params : AircraftParams.t;
  dt_s : R;
  state : SimulationState.t
}.

(** A method body: it runs on [self], may raise, and leaves [self] as
    mutated so far, also when it raises. *)
Definition method (A : Type) : Type := t -> result A * t.

Definition ret {A : Type} (a : A) : method A := fun self => (Ok a, self).

Definition bind {A B : Type} (m : method A) (k : A -> method B) : method B :=
  fun self =>
    match m self with
    | (Ok a, self') => k a self'
    | (Raise e, self') => (Raise e, self')
    end.

Definition lift {A : Type} (r : result A) : method A := fun self => (r, self).

Definition self_params : method AircraftParams.t :=
  fun self => (Ok (params self), self).

Definition self_state : method SimulationState.t :=
  fun self => (Ok (state self), self).

Definition self_dt_s : method R := fun self => (Ok (dt_s self), self).

(** [self.params.f = v] and [self.state.f = v]. *)
Definition assign_params (f : AircraftParams.t -> AircraftParams.t)
  : method unit :=
  fun self =>
    (Ok tt, {| params := f (params self); dt_s := dt_s self;
               state := state self |}).

Definition assign_state (f : SimulationState.t -> SimulationState.t)
  : method unit :=
  fun self =>
    (Ok tt, {| params := params self; dt_s := dt_s self;
               state := f (state self) |}).

Declare Scope method_scope.
Delimit Scope method_scope with method.

Notation "x <- m ;; k" := (bind m (fun x => k))
  (at level 61, m at next level, right associativity) : method_scope.
Notation "m ;; k" := (bind m (fun _ => k))
  (at level 61, right associativity) : method_scope.

Local Open Scope method_scope.

Definition __init__ (params : AircraftParams.t) (dt_s : R) : t :=
  {| params := params;
     dt_s := dt_s;
     state :=
       {| SimulationState.altitude_m := AircraftParams.altitude_m params;
          SimulationState.airspeed_m_s := AircraftParams.airspeed_m_s params;
          SimulationState.angle_of_attack_deg :=
            AircraftParams.angle_of_attack_deg params;
          SimulationState.time_s := 0.0;
          SimulationState.lift_N := 0.0;
          SimulationState.drag_N := 0.0;
          SimulationState.thrust_N := 0.0;
          SimulationState.weight_N := 0.0;
          SimulationState.acceleration_m_s2 := 0.0 |} |}.

Definition sync_params_from_state : method unit :=
  s <- self_state ;;
  assign_params (AircraftParams.set_altitude_m (SimulationState.altitude_m s)) ;;
  s <- self_state ;;
  assign_params (AircraftParams.set_airspeed_m_s (SimulationState.airspeed_m_s s)) ;;
  s <- self_state ;;
  assign_params
    (AircraftParams.set_angle_of_attack_deg
       (SimulationState.angle_of_attack_deg s)).

Definition step : method SimulationState.t :=
  sync_params_from_state ;;
  p <- self_params ;;
  L <- lift (compute_lift p) ;;
  D <- lift (compute_drag p) ;;
  let T := compute_thrust p in
  let W := compute_weight p in
  let alpha_rad := radians (AircraftParams.angle_of_attack_deg p) in
  axial <- lift (py_div (T - D) (AircraftParams.mass_kg p)) ;;
  assign_state (SimulationState.set_lift_N L) ;;
  assign_state (SimulationState.set_drag_N D) ;;
  assign_state (SimulationState.set_thrust_N T) ;;
  assign_state (SimulationState.set_weight_N W) ;;
  assign_state (SimulationState.set_acceleration_m_s2 axial) ;;
  s <- self_state ;;
  let v := SimulationState.airspeed_m_s s in
  dt <- self_dt_s ;;
  assign_state (SimulationState.set_airspeed_m_s (py_max 5.0 (v + axial * dt))) ;;
  (if Rgt_dec W 0 then
     quot <- lift (py_div (T - D) W) ;;
     let sin_gamma := py_max (-0.5) (py_min 0.5 quot) in
     s <- self_state ;;
     let climb_rate := SimulationState.airspeed_m_s s * sin_gamma in
     dt <- self_dt_s ;;
     assign_state
       (SimulationState.set_altitude_m
          (py_max 0.0 (SimulationState.altitude_m s + climb_rate * dt)))
   else ret tt) ;;
  s <- self_state ;;
  dt <- self_dt_s ;;
  assign_state (SimulationState.set_time_s (SimulationState.time_s s + dt)) ;;
  self_state.

End AerodynamicsSimulator.

(** ** run_simulation.py *)

(** The time-stepping loop of [main]: each iteration calls [sim.step()]
    and prints the row of the state it returns.  The result is the rows
    printed, in order, the way the loop ended, and the simulator it
    leaves; an exception of [step] ends the loop, the rows printed before
    it staying printed. *)
Fixpoint time_stepping (n : nat) (sim : AerodynamicsSimulator.t)
  : list SimulationState.t * result unit * AerodynamicsSimulator.t :=
  match n with
  | O => ([], Ok tt, sim)
  | S n' =>
      match AerodynamicsSimulator.step sim with
      | (Ok state, sim1) =>
          let '(rows, outcome, sim2) := time_stepping n' sim1 in
          (state :: rows, outcome, sim2)
      | (Raise e, sim1) => ([], Raise e, sim1)
      end
  end.


(** The "Thrust (current)" figure of the steady-state summary. *)
Definition main_thrust_current (params : AircraftParams.t) : R :=
  AircraftParams.max_thrust_N params * AircraftParams.thrust_ratio params.

(** ** The formulas of the specification

    These follow the words of the specification, with its own constants
    written out, and are what the embedded code is compared with.  Powers
    with a positive base are the real power [Rpower]. *)

(** §4.1, troposphere:
    [rho0 * (T/T0)^(g*M/(R*L) - 1)] with [T = T0 - L*altitude]. *)
Definition spec_troposphere_density (altitude : R) : R :=
  let T0 := 288.15 in
  let L := 0.0065 in
  let g := 9.81 in
  let M := 0.0289644 in
  let Rgas := 287.05 in
  let rho0 := 1.225 in
  let T := T0 - L * altitude in
  rho0 * Rpower (T / T0) (g * M / (Rgas * L) - 1).

(** §4.1, stratosphere, as the specification words it: the boundary
    density times [e^(-0.000157*(h - 11000))], [e] being Euler's number. *)
Definition spec_stratosphere_density (altitude : R) : R :=
  spec_troposphere_density 11000 * exp (-0.000157 * (altitude - 11000)).

(** The same decay with the base the source writes, [2.718]. *)
Definition stratosphere_density_2718 (altitude : R) : R :=
  spec_troposphere_density 11000
  * Rpower 2.718 (-0.000157 * (altitude - 11000)).

(** §4.1, pressure: [P0 * (T/T0)^(-g/(R*L))], the temperature law being
    clamped at 11000 m. *)
Definition spec_barometric_pressure (altitude : R) : R :=
  let T0 := 288.15 in
  let L := 0.0065 in
  let g := 9.81 in
  let Rgas := 287.05 in
  let P0 := 101325 in
  let T := T0 - L * Rmin altitude 11000 in
  P0 * Rpower (T / T0) (- g / (Rgas * L)).

(** [clamp(x, lo, hi)]. *)
Definition clamp (x lo hi : R) : R := Rmax lo (Rmin hi x).

(** §3, the invariant of the simulation state. *)
Definition state_invariant (s : SimulationState.t) : Prop :=
  5.0 <= SimulationState.airspeed_m_s s /\ 0.0 <= SimulationState.altitude_m s.

(** What [sync_params_from_state] leaves in [self.params]: the caller's
    record with its flight condition overwritten from [self.state]. *)
Definition synced_params (self : AerodynamicsSimulator.t) : AircraftParams.t :=
  let s := AerodynamicsSimulator.state self in
  AircraftParams.set_angle_of_attack_deg (SimulationState.angle_of_attack_deg s)
    (AircraftParams.set_airspeed_m_s (SimulationState.airspeed_m_s s)
       (AircraftParams.set_altitude_m (SimulationState.altitude_m s)
          (AerodynamicsSimulator.params self))).

(** §4.3, steps 3 to 6: the state one step after [self], given the lift
    [L] and the drag [D] that the force model returns on the synchronised
    parameters. *)
Definition spec_stepped_state (self : AerodynamicsSimulator.t) (L D : R)
  : SimulationState.t :=
  let p := synced_params self in
  let s := AerodynamicsSimulator.state self in
  let dt := AerodynamicsSimulator.dt_s self in
  let T := compute_thrust p in
  let W := compute_weight p in
  let a := (T - D) / AircraftParams.mass_kg p in
  let v_new := Rmax 5.0 (SimulationState.airspeed_m_s s + a * dt) in
  {| SimulationState.altitude_m :=
       if Rgt_dec W 0
       then Rmax 0 (SimulationState.altitude_m s
                    + v_new * clamp ((T - D) / W) (-0.5) 0.5 * dt)
       else SimulationState.altitude_m s;
     SimulationState.airspeed_m_s := v_new;
     SimulationState.angle_of_attack_deg := SimulationState.angle_of_attack_deg s;
     SimulationState.time_s := SimulationState.time_s s + dt;
     SimulationState.lift_N := L;
     SimulationState.drag_N := D;
     SimulationState.thrust_N := T;
     SimulationState.weight_N := W;
     SimulationState.acceleration_m_s2 := a |}.

(** The simulators a caller can get to from [AerodynamicsSimulator(p0, dt)]:
    by calling [step], whether it returns or raises, and by assigning to
    the fields of the parameter record it shares with the simulator
    (directly or through [set_params]) between two steps. *)
Inductive reachable (p0 : AircraftParams.t) (dt : R)
  : AerodynamicsSimulator.t -> Prop :=
| reachable_init :
    reachable p0 dt (AerodynamicsSimulator.__init__ p0 dt)
| reachable_step (self : AerodynamicsSimulator.t) :
    reachable p0 dt self ->
    reachable p0 dt (snd (AerodynamicsSimulator.step self))
| reachable_assign (self : AerodynamicsSimulator.t) (p' : AircraftParams.t) :
    reachable p0 dt self ->
    reachable p0 dt
      {| AerodynamicsSimulator.params := p';
         AerodynamicsSimulator.dt_s := AerodynamicsSimulator.dt_s self;
         AerodynamicsSimulator.state := AerodynamicsSimulator.state self |}.

(** * Properties *)

(** ** Python arithmetic *)

Lemma py_div_ok (x y : R) : y <> 0 -> py_div x y = Ok (x / y).
Proof.
  intros Hy. unfold py_div.
  destruct (Req_dec_T y 0); [contradiction | reflexivity].
Qed.

Lemma py_div_zero (x : R) : py_div x 0 = Raise ZeroDivisionError.
Proof.
  unfold py_div. destruct (Req_dec_T 0 0) as [_ | H]; [reflexivity | now elim H].
Qed.

Lemma FLOAT_OVERFLOW_pos : 0 < FLOAT_OVERFLOW.
Proof. unfold FLOAT_OVERFLOW, float_overflow_Z. lra. Qed.

Lemma FLOAT_UNDERFLOW_pos : 0 < FLOAT_UNDERFLOW.
Proof. unfold FLOAT_UNDERFLOW, float_underflow_Z. lra. Qed.

Lemma pow_result_ok (r : R) : Rabs r < FLOAT_OVERFLOW -> pow_result r = Ok r.
Proof.
  intros Hr. unfold pow_result.
  destruct (Rle_dec FLOAT_OVERFLOW (Rabs r)); [lra | reflexivity].
Qed.

Lemma pow_result_overflow (r : R) :
  FLOAT_OVERFLOW <= Rabs r -> pow_result r = Raise OverflowError.
Proof.
  intros Hr. unfold pow_result.
  destruct (Rle_dec FLOAT_OVERFLOW (Rabs r)); [reflexivity | lra].
Qed.

Lemma py_pow_pos (x y : R) :
  0 < x -> Rpower x y < FLOAT_OVERFLOW -> py_pow x y = Ok (Rpower x y).
Proof.
  intros Hx Hr. unfold py_pow.
  destruct (Req_dec_T y 0) as [-> | Hy].
  - now rewrite Rpower_O.
  - destruct (Req_dec_T x 0); [lra |].
    destruct (Rlt_dec x 0); [lra |].
    apply pow_result_ok. rewrite Rabs_pos_eq; [exact Hr |].
    left. unfold Rpower. apply exp_pos.
Qed.

Lemma Int_part_2 : Int_part 2 = 2%Z.
Proof. symmetry. apply Int_part_spec. lra. Qed.

(** Squaring with [** 2]: the square, unless it overflows. *)
Lemma py_pow_2 (x : R) : py_pow x 2 = pow_result (x * x).
Proof.
  unfold py_pow.
  destruct (Req_dec_T 2 0); [lra |].
  destruct (Req_dec_T x 0) as [-> | Hx].
  - destruct (Rlt_dec 2 0); [lra |].
    rewrite pow_result_ok.
    + f_equal. lra.
    + rewrite Rmult_0_l, Rabs_R0. apply FLOAT_OVERFLOW_pos.
  - destruct (Rlt_dec x 0) as [Hneg | Hpos].
    + unfold frac_part. rewrite Int_part_2.
      destruct (Req_dec_T (2 - 2) 0) as [_ | H]; [| lra].
      f_equal. simpl. lra.
    + f_equal. replace 2 with (INR 2) by (simpl; lra).
      rewrite Rpower_pow by lra. simpl. lra.
Qed.

Lemma py_pow_2_ok (x : R) : x * x < FLOAT_OVERFLOW -> py_pow x 2 = Ok (x * x).
Proof.
  intros Hx. rewrite py_pow_2. apply pow_result_ok.
  rewrite Rabs_pos_eq; [exact Hx | nra].
Qed.

Lemma py_pow_2_overflow (x : R) :
  FLOAT_OVERFLOW <= x * x -> py_pow x 2 = Raise OverflowError.
Proof.
  intros Hx. rewrite py_pow_2. apply pow_result_overflow.
  rewrite Rabs_pos_eq; [exact Hx | nra].
Qed.

(** A float product that is not zero is the product. *)
Lemma float_mul_nonzero (x y : R) : float_mul x y <> 0 -> float_mul x y = x * y.
Proof.
  unfold float_mul.
  destruct (Rle_dec (Rabs (x * y)) FLOAT_UNDERFLOW); [now intros [] | reflexivity].
Qed.

Lemma float_mul_above (x y : R) :
  FLOAT_UNDERFLOW < x * y -> float_mul x y = x * y.
Proof.
  intros H. unfold float_mul.
  destruct (Rle_dec (Rabs (x * y)) FLOAT_UNDERFLOW) as [Hle | _];
    [| reflexivity].
  pose proof (Rle_abs (x * y)). lra.
Qed.

Lemma float_mul_underflow (x y : R) :
  0 <= x * y -> x * y <= FLOAT_UNDERFLOW -> float_mul x y = 0.
Proof.
  intros H0 H. unfold float_mul. rewrite Rabs_pos_eq by exact H0.
  destruct (Rle_dec (x * y) FLOAT_UNDERFLOW); [reflexivity | lra].
Qed.

Lemma float_mul_0_l (y : R) : float_mul 0 y = 0.
Proof.
  apply float_mul_underflow; rewrite Rmult_0_l;
    [lra | left; apply FLOAT_UNDERFLOW_pos].
Qed.

Lemma PI_gt_3 : 3 < PI.
Proof. pose proof PI2_3_2 as H. unfold PI2 in H. lra. Qed.

Lemma py_max_Rmax (a b : R) : py_max a b = Rmax a b.
Proof.
  unfold py_max, Rmax.
  destruct (Rlt_dec a b), (Rle_dec a b); lra.
Qed.

Lemma py_min_Rmin (a b : R) : py_min a b = Rmin b a.
Proof.
  unfold py_min, Rmin.
  destruct (Rlt_dec b a), (Rle_dec b a); lra.
Qed.

(** Euler's number is not the constant of the source: the partial sum
    [1 + 1 + 1/2 + ... + 1/720] of the series of [exp 1] already exceeds
    [2.718]. *)
Lemma exp_1_gt_2718 : 2.718 < exp 1.
Proof.
  assert (H : sum_f_R0 (fun i : nat => / INR (fact i) * 1 ^ i) 6 <= exp 1).
  { apply sum_incr.
    - exact (proj2_sig (exist_exp 1)).
    - intros n. rewrite pow1, Rmult_1_r.
      left. apply Rinv_0_lt_compat, INR_fact_lt_0. }
  cbn in H. lra.
Qed.

(** The powers of the atmosphere model stay far inside the range: a base
    in [3/4, 1] to an exponent in [-6, 0] is at most [exp 6 <= 729]. *)
Lemma exp_6_le : exp 6 <= 729.
Proof.
  pose proof exp_le_3 as H1. pose proof (exp_pos 1) as Hp.
  replace 6 with (1 + 1 + (1 + 1) + (1 + 1)) by lra.
  rewrite !exp_plus.
  assert (H2 : exp 1 * exp 1 <= 9) by nra.
  assert (Hp2 : 0 < exp 1 * exp 1) by nra.
  assert (H4 : exp 1 * exp 1 * (exp 1 * exp 1) <= 81) by nra.
  assert (Hp4 : 0 < exp 1 * exp 1 * (exp 1 * exp 1)) by nra.
  nra.
Qed.

Lemma ln_three_quarters : -1 <= ln (3 / 4).
Proof.
  replace (-1) with (- (1)) by lra.
  rewrite <- (ln_exp (- (1))).
  assert (Hlt : exp (- (1)) < 3 / 4).
  { rewrite exp_Ropp. pose proof exp_1_gt_2718 as He.
    apply Rmult_lt_reg_r with (exp 1); [lra |].
    rewrite Rinv_l by lra. lra. }
  left. apply ln_increasing; [apply exp_pos | exact Hlt].
Qed.

Lemma Rpower_atmosphere_bound (r c : R) :
  3 / 4 <= r -> r <= 1 -> -6 <= c -> c <= 0 -> Rpower r c < FLOAT_OVERFLOW.
Proof.
  intros Hr3 Hr1 Hc6 Hc0.
  assert (Hln : -1 <= ln r <= 0).
  { split.
    - apply Rle_trans with (ln (3 / 4)); [apply ln_three_quarters |].
      destruct Hr3 as [Hlt | <-]; [| lra].
      left. apply ln_increasing; lra.
    - destruct Hr1 as [Hlt | ->]; [| rewrite ln_1; lra].
      rewrite <- ln_1. left. apply ln_increasing; lra. }
  apply Rle_lt_trans with (exp 6).
  - unfold Rpower.
    destruct (Rle_lt_or_eq_dec (c * ln r) 6) as [Hlt | ->]; [nra | | lra].
    left. now apply exp_increasing.
  - apply Rle_lt_trans with 729; [apply exp_6_le |].
    unfold FLOAT_OVERFLOW, float_overflow_Z. lra.
Qed.

Lemma py_pow_atmosphere (r c : R) :
  3 / 4 <= r -> r <= 1 -> -6 <= c -> c <= 0 -> py_pow r c = Ok (Rpower r c).
Proof.
  intros Hr3 Hr1 Hc6 Hc0.
  apply py_pow_pos; [lra | now apply Rpower_atmosphere_bound].
Qed.

(** The decay factor of the stratosphere is at most 1. *)
Lemma py_pow_2718_decay (y : R) : y <= 0 -> py_pow 2.718 y = Ok (Rpower 2.718 y).
Proof.
  intros Hy. apply py_pow_pos; [lra |].
  apply Rle_lt_trans with 1.
  - destruct Hy as [Hlt | ->]; [| rewrite Rpower_O; lra].
    rewrite <- (Rpower_O 2.718) by lra. left. apply Rpower_lt; lra.
  - unfold FLOAT_OVERFLOW, float_overflow_Z. lra.
Qed.

(** One fallible operation of a [result] computation that succeeds: the
    side condition is left to [tac]. *)
Ltac py_ok tac :=
  first [rewrite py_div_ok by tac
        | rewrite py_pow_atmosphere by tac
        | rewrite py_pow_2718_decay by tac];
  cbn [result_bind].

(** ** atmosphere.py *)

Lemma troposphere_ratio_range (h : R) :
  0 <= h -> h <= 11000 ->
  3 / 4 <= (TEMP_SEA_LEVEL - LAPSE_RATE * h) / TEMP_SEA_LEVEL <= 1.
Proof. intros H0 H11. unfold TEMP_SEA_LEVEL, LAPSE_RATE. lra. Qed.

Lemma density_exponent_range :
  -6 <= GRAVITY * 0.0289644 / (GAS_CONSTANT * LAPSE_RATE) - 1 <= 0.
Proof. unfold GRAVITY, GAS_CONSTANT, LAPSE_RATE. lra. Qed.

Lemma pressure_exponent_range :
  -6 <= - GRAVITY / (GAS_CONSTANT * LAPSE_RATE) <= 0.
Proof. unfold GRAVITY, GAS_CONSTANT, LAPSE_RATE. lra. Qed.

(** The side conditions of the powers of the atmosphere model. *)
Ltac atmosphere_range :=
  first [ apply troposphere_ratio_range; lra
        | apply density_exponent_range
        | apply pressure_exponent_range
        | lra ].

Lemma air_density_sea_level (h : R) : h <= 0 -> air_density h = Ok RHO_SEA_LEVEL.
Proof.
  intros Hh. unfold air_density. destruct (Rle_dec h 0); [reflexivity | lra].
Qed.

Lemma air_density_troposphere (h : R) :
  0 < h -> h <= 11000 -> air_density h = Ok (spec_troposphere_density h).
Proof.
  intros H0 H11. unfold air_density.
  destruct (Rle_dec h 0); [lra |].
  destruct (Rgt_dec h 11000); [lra |].
  cbv zeta.
  py_ok ltac:(unfold TEMP_SEA_LEVEL; lra).
  py_ok ltac:(unfold GAS_CONSTANT, LAPSE_RATE; lra).
  py_ok atmosphere_range.
  reflexivity.
Qed.

Lemma air_density_stratosphere (h : R) :
  11000 < h -> air_density h = Ok (stratosphere_density_2718 h).
Proof.
  intros H11. unfold air_density.
  destruct (Rle_dec h 0); [lra |].
  destruct (Rgt_dec h 11000); [| lra].
  cbv zeta.
  py_ok ltac:(unfold TEMP_SEA_LEVEL; lra).
  py_ok ltac:(unfold GAS_CONSTANT, LAPSE_RATE; lra).
  py_ok atmosphere_range.
  py_ok lra.
  reflexivity.
Qed.

Lemma spec_troposphere_density_pos (h : R) : 0 < spec_troposphere_density h.
Proof.
  unfold spec_troposphere_density. cbv zeta.
  apply Rmult_lt_0_compat; [lra |]. unfold Rpower. apply exp_pos.
Qed.

(** The atmosphere lookup returns a density for every altitude. *)
Lemma air_density_total (h : R) : exists rho, air_density h = Ok rho /\ 0 < rho.
Proof.
  destruct (Rle_dec h 0) as [H0 | H0].
  - exists RHO_SEA_LEVEL. split; [now apply air_density_sea_level |].
    unfold RHO_SEA_LEVEL; lra.
  - destruct (Rle_dec h 11000) as [H11 | H11].
    + exists (spec_troposphere_density h).
      split; [apply air_density_troposphere; lra |].
      apply spec_troposphere_density_pos.
    + exists (stratosphere_density_2718 h).
      split; [apply air_density_stratosphere; lra |].
      unfold stratosphere_density_2718.
      apply Rmult_lt_0_compat; [apply spec_troposphere_density_pos |].
      unfold Rpower. apply exp_pos.
Qed.

(** The decay factor of the source differs from the exponential at every
    nonzero exponent. *)
Lemma Rpower_2718_neq_exp (x : R) : x <> 0 -> Rpower 2.718 x <> exp x.
Proof.
  intros Hx Heq. unfold Rpower in Heq. apply exp_inv in Heq.
  assert (Hln : ln 2.718 = 1) by nra.
  pose proof exp_1_gt_2718 as He.
  rewrite <- Hln, exp_ln in He; lra.
Qed.

(** Above 11000 m the result is never the one with Euler's number. *)
Lemma air_density_not_exp_decay (h : R) :
  11000 < h -> air_density h <> Ok (spec_stratosphere_density h).
Proof.
  intros Hh. rewrite air_density_stratosphere by exact Hh.
  intros Heq. injection Heq as Heq.
  unfold stratosphere_density_2718, spec_stratosphere_density in Heq.
  apply Rmult_eq_reg_l in Heq.
  - revert Heq. apply Rpower_2718_neq_exp. lra.
  - pose proof (spec_troposphere_density_pos 11000). lra.
Qed.

(** C2, as the specification states it, fails at 12000 m: the source
    raises [2.718], not Euler's number, to the power
    [-0.000157 * (h - 11000)]. *)
Lemma air_density_12000_not_exp_decay :
  air_density 12000 <> Ok (spec_stratosphere_density 12000).
Proof. apply air_density_not_exp_decay. lra. Qed.

(** C2, amended: for every altitude above 11000 m, [air_density] returns
    the troposphere density at exactly 11000 m times
    [2.718 ^ (-0.000157 * (h - 11000))], the base being the literal
    [2.718] of the source. *)
Theorem air_density_above_11000 (h : R) :
  11000 < h ->
  air_density h
  = Ok (spec_troposphere_density 11000
        * Rpower 2.718 (-0.000157 * (h - 11000))).
Proof. intros Hh. now rewrite air_density_stratosphere. Qed.

Lemma air_density_above_11000_witness :
  air_density 12000
  = Ok (spec_troposphere_density 11000
        * Rpower 2.718 (-0.000157 * (12000 - 11000))).
Proof. apply (air_density_above_11000 12000). lra. Defined.

(** C4: [pressure] returns 101325 at or below sea level and otherwise
    the one barometric formula [P0 * (T/T0)^(-g/(R*L))] with the altitude
    clamped at 11000 m in the temperature law; so above 11000 m it
    returns what it returns at 11000 m. *)
Theorem pressure_barometric_clamped (h : R) :
  (h <= 0 -> pressure h = Ok 101325)
  /\ (0 < h -> pressure h = Ok (spec_barometric_pressure h))
  /\ (11000 < h -> pressure h = pressure 11000).
Proof.
  assert (Hpos : forall a, 0 < a -> pressure a = Ok (spec_barometric_pressure a)).
  { intros a Ha. unfold pressure.
    destruct (Rle_dec a 0); [lra |].
    cbv zeta. rewrite py_min_Rmin.
    assert (Hmin : 0 <= Rmin 11000 a <= 11000).
    { split; [apply Rmin_glb; lra | apply Rmin_l]. }
    py_ok ltac:(unfold TEMP_SEA_LEVEL; lra).
    py_ok ltac:(unfold GAS_CONSTANT, LAPSE_RATE; lra).
    py_ok atmosphere_range.
    unfold spec_barometric_pressure. cbv zeta.
    now rewrite (Rmin_comm a 11000). }
  split; [| split].
  - intros Hh. unfold pressure. destruct (Rle_dec h 0); [reflexivity | lra].
  - exact (Hpos h).
  - intros Hh. rewrite (Hpos h), (Hpos 11000) by lra.
    unfold spec_barometric_pressure. cbv zeta.
    rewrite (Rmin_right h 11000), (Rmin_left 11000 11000) by lra.
    reflexivity.
Qed.

Lemma pressure_barometric_clamped_witness :
  pressure 0 = Ok 101325
  /\ pressure 5000 = Ok (spec_barometric_pressure 5000)
  /\ pressure 15000 = pressure 11000.
Proof.
  split; [| split].
  - apply (proj1 (pressure_barometric_clamped 0)). lra.
  - apply (proj1 (proj2 (pressure_barometric_clamped 5000))). lra.
  - apply (proj2 (proj2 (pressure_barometric_clamped 15000))). lra.
Defined.

(** At the seam the decay factor is 1: both formulas give the same value
    at exactly 11000 m. *)
Lemma stratosphere_density_seam :
  stratosphere_density_2718 11000 = spec_troposphere_density 11000.
Proof.
  unfold stratosphere_density_2718.
  replace (-0.000157 * (11000 - 11000)) with 0 by lra.
  rewrite Rpower_O by lra. lra.
Qed.

(** C5: at exactly 11000 m [air_density] returns the troposphere formula
    [rho0 * (T/T0)^(g*M/(R*L) - 1)] with [T = T0 - L*11000]: the guard
    [altitude_m > 11000] of the stratosphere branch is strict.  The
    troposphere formula is the result on all of [0 < h <= 11000] and the
    stratosphere decay is applied only for [h > 11000].  (By
    [stratosphere_density_seam] the two formulas agree in value at the
    seam itself.) *)
Theorem air_density_boundary_11000 :
  air_density 11000 = Ok (spec_troposphere_density 11000)
  /\ (forall h, 0 < h -> h <= 11000 ->
        air_density h = Ok (spec_troposphere_density h))
  /\ (forall h, 11000 < h ->
        air_density h = Ok (stratosphere_density_2718 h)).
Proof.
  split; [| split].
  - apply air_density_troposphere; lra.
  - exact air_density_troposphere.
  - exact air_density_stratosphere.
Qed.

Lemma air_density_boundary_11000_witness :
  air_density 11000 = Ok (spec_troposphere_density 11000)
  /\ air_density 5000 = Ok (spec_troposphere_density 5000)
  /\ air_density 15000 = Ok (stratosphere_density_2718 15000).
Proof.
  destruct air_density_boundary_11000 as (H11 & Htropo & Hstrato).
  split; [exact H11 | split].
  - apply (Htropo 5000); lra.
  - apply (Hstrato 15000); lra.
Defined.

(** ** forces.py *)

Lemma drag_coefficient_degenerate (cl cd0 aspect_ratio oswald_efficiency : R) :
  aspect_ratio <= 0 \/ oswald_efficiency <= 0 ->
  drag_coefficient cl cd0 aspect_ratio oswald_efficiency = Ok cd0.
Proof.
  intros H. unfold drag_coefficient.
  destruct (Rle_dec aspect_ratio 0); [reflexivity |].
  destruct (Rle_dec oswald_efficiency 0); [reflexivity | lra].
Qed.

(** The divisor of the induced term, [math.pi * oswald_efficiency *
    aspect_ratio] as the floats compute it. *)
Lemma induced_divisor_nonzero (aspect_ratio oswald_efficiency : R) :
  float_mul (float_mul PI oswald_efficiency) aspect_ratio <> 0 ->
  float_mul (float_mul PI oswald_efficiency) aspect_ratio
  = PI * oswald_efficiency * aspect_ratio.
Proof.
  intros Hnz.
  assert (H1 : float_mul PI oswald_efficiency <> 0).
  { intros H0. apply Hnz. rewrite H0. apply float_mul_0_l. }
  rewrite (float_mul_nonzero _ _ H1) in Hnz |- *.
  now apply float_mul_nonzero.
Qed.

Lemma induced_divisor_above (aspect_ratio oswald_efficiency : R) :
  FLOAT_UNDERFLOW < PI * oswald_efficiency ->
  FLOAT_UNDERFLOW < PI * oswald_efficiency * aspect_ratio ->
  float_mul (float_mul PI oswald_efficiency) aspect_ratio <> 0.
Proof.
  intros H1 H2. rewrite (float_mul_above _ _ H1), (float_mul_above _ _ H2).
  pose proof FLOAT_UNDERFLOW_pos. lra.
Qed.

Lemma drag_coefficient_induced (cl cd0 aspect_ratio oswald_efficiency : R) :
  0 < aspect_ratio -> 0 < oswald_efficiency ->
  cl * cl < FLOAT_OVERFLOW ->
  float_mul (float_mul PI oswald_efficiency) aspect_ratio <> 0 ->
  drag_coefficient cl cd0 aspect_ratio oswald_efficiency
  = Ok (cd0 + cl * cl / (PI * oswald_efficiency * aspect_ratio)).
Proof.
  intros Har He Hcl Hdiv. unfold drag_coefficient.
  destruct (Rle_dec aspect_ratio 0); [lra |].
  destruct (Rle_dec oswald_efficiency 0); [lra |].
  rewrite py_pow_2_ok by exact Hcl. cbn [result_bind].
  rewrite py_div_ok by exact Hdiv. cbn [result_bind].
  now rewrite induced_divisor_nonzero.
Qed.

Lemma drag_coefficient_overflow (cl cd0 aspect_ratio oswald_efficiency : R) :
  0 < aspect_ratio -> 0 < oswald_efficiency ->
  FLOAT_OVERFLOW <= cl * cl ->
  drag_coefficient cl cd0 aspect_ratio oswald_efficiency = Raise OverflowError.
Proof.
  intros Har He Hcl. unfold drag_coefficient.
  destruct (Rle_dec aspect_ratio 0); [lra |].
  destruct (Rle_dec oswald_efficiency 0); [lra |].
  now rewrite py_pow_2_overflow.
Qed.

(** The case the guard of [drag_coefficient] misses: an aspect ratio and
    an Oswald efficiency that are positive, with a product that underflows
    to zero. *)
Lemma drag_coefficient_underflow (cl cd0 aspect_ratio oswald_efficiency : R) :
  0 < aspect_ratio -> 0 < oswald_efficiency ->
  cl * cl < FLOAT_OVERFLOW ->
  float_mul (float_mul PI oswald_efficiency) aspect_ratio = 0 ->
  drag_coefficient cl cd0 aspect_ratio oswald_efficiency
  = Raise ZeroDivisionError.
Proof.
  intros Har He Hcl Hdiv. unfold drag_coefficient.
  destruct (Rle_dec aspect_ratio 0); [lra |].
  destruct (Rle_dec oswald_efficiency 0); [lra |].
  rewrite py_pow_2_ok by exact Hcl. cbn [result_bind].
  now rewrite Hdiv, py_div_zero.
Qed.

Lemma drag_coefficient_underflow_raises :
  drag_coefficient 0.3 0.025 1e-200 1e-200 = Raise ZeroDivisionError.
Proof.
  pose proof PI_RGT_0 as Hpi0. pose proof PI_4 as Hpi4.
  apply drag_coefficient_underflow.
  - lra.
  - lra.
  - unfold FLOAT_OVERFLOW, float_overflow_Z. lra.
  - rewrite (float_mul_above PI 1e-200).
    + apply float_mul_underflow.
      * lra.
      * unfold FLOAT_UNDERFLOW, float_underflow_Z. lra.
    + pose proof PI_gt_3. unfold FLOAT_UNDERFLOW, float_underflow_Z. lra.
Qed.




Lemma compute_lift_total (p : AircraftParams.t) : exists L, compute_lift p = Ok L.
Proof.
  unfold compute_lift.
  destruct (air_density_total (AircraftParams.altitude_m p)) as (rho & -> & _).
  cbn [result_bind]. eexists. reflexivity.
Qed.

(** [compute_drag] returns or raises as [drag_coefficient] does. *)
Lemma compute_drag_of_coefficient (p : AircraftParams.t) :
  exists rho,
    air_density (AircraftParams.altitude_m p) = Ok rho
    /\ compute_drag p
       = match
           drag_coefficient
             (lift_coefficient
                (radians (AircraftParams.angle_of_attack_deg p))
                (AircraftParams.cl_alpha p))
             (AircraftParams.cd0 p) (AircraftParams.aspect_ratio p)
             (AircraftParams.oswald_efficiency p)
         with
         | Ok cd =>
             Ok (dynamic_pressure rho (AircraftParams.airspeed_m_s p)
                 * AircraftParams.wing_area_m2 p * cd)
         | Raise e => Raise e
         end.
Proof.
  destruct (air_density_total (AircraftParams.altitude_m p)) as (rho & Hrho & _).
  exists rho. split; [exact Hrho |].
  unfold compute_drag. rewrite Hrho. cbn [result_bind]. cbv zeta.
  destruct (drag_coefficient _ _ _ _); reflexivity.
Qed.

(** A polar in the ordinary range: the drag coefficient is returned. *)
Lemma drag_coefficient_returns (cl cd0 aspect_ratio oswald_efficiency : R) :
  cl * cl < FLOAT_OVERFLOW ->
  (0 < oswald_efficiency -> FLOAT_UNDERFLOW < PI * oswald_efficiency) ->
  (0 < oswald_efficiency -> 0 < aspect_ratio ->
   FLOAT_UNDERFLOW < PI * oswald_efficiency * aspect_ratio) ->
  exists cd, drag_coefficient cl cd0 aspect_ratio oswald_efficiency = Ok cd.
Proof.
  intros Hcl H1 H2.
  destruct (Rle_dec aspect_ratio 0) as [Har | Har].
  - exists cd0. apply drag_coefficient_degenerate. now left.
  - destruct (Rle_dec oswald_efficiency 0) as [He | He].
    + exists cd0. apply drag_coefficient_degenerate. now right.
    + eexists. apply drag_coefficient_induced; try lra.
      apply induced_divisor_above; [apply H1 | apply H2]; lra.
Qed.

(** The default polar with an angle of attack between 0 and 3 degrees, at
    any altitude, airspeed, mass and thrust: the drag is returned. *)
Lemma compute_drag_default_polar (p : AircraftParams.t) :
  AircraftParams.cl_alpha p = 5.5 ->
  AircraftParams.aspect_ratio p = 8.0 ->
  AircraftParams.oswald_efficiency p = 0.82 ->
  0 <= AircraftParams.angle_of_attack_deg p <= 3.0 ->
  exists D, compute_drag p = Ok D.
Proof.
  intros Hcla Har He Halpha.
  destruct (compute_drag_of_coefficient p) as (rho & _ & ->).
  pose proof PI_gt_3 as Hpi3. pose proof PI_4 as Hpi4.
  destruct (drag_coefficient_returns
              (lift_coefficient
                 (radians (AircraftParams.angle_of_attack_deg p))
                 (AircraftParams.cl_alpha p))
              (AircraftParams.cd0 p) (AircraftParams.aspect_ratio p)
              (AircraftParams.oswald_efficiency p)) as (cd & ->).
  - unfold lift_coefficient, radians. rewrite Hcla.
    set (a := AircraftParams.angle_of_attack_deg p) in *.
    assert (Hcl : 0 <= 5.5 * (a * (PI / 180)) <= 1) by nra.
    apply Rle_lt_trans with 1; [nra |].
    unfold FLOAT_OVERFLOW, float_overflow_Z. lra.
  - intros _. rewrite He. unfold FLOAT_UNDERFLOW, float_underflow_Z. lra.
  - intros _ _. rewrite He, Har. unfold FLOAT_UNDERFLOW, float_underflow_Z. lra.
  - eexists. reflexivity.
Qed.

(** C8: the thrust required is the drag, and neither depends on the
    [max_thrust_N] and [thrust_ratio] fields: assigning any values to those
    two fields leaves the result as it was. *)
Theorem compute_thrust_required_is_drag (p : AircraftParams.t) (mt tr : R) :
  compute_thrust_required p = compute_drag p
  /\ compute_thrust_required
       (AircraftParams.set_max_thrust_N mt (AircraftParams.set_thrust_ratio tr p))
     = compute_thrust_required p.
Proof. split; reflexivity. Qed.

(** ** simulation.py *)

Import AerodynamicsSimulator.

Lemma sync_params_from_state_run (self : t) :
  sync_params_from_state self
  = (Ok tt,
     {| params := synced_params self; dt_s := dt_s self; state := state self |}).
Proof. reflexivity. Qed.

(** One step on a simulator whose mass is not zero: the method returns,
    the parameter record is the synchronised one and the state is the one
    of the documented formulas. *)
Lemma step_run (self : t) (L D : R) :
  compute_lift (synced_params self) = Ok L ->
  compute_drag (synced_params self) = Ok D ->
  AircraftParams.mass_kg (params self) <> 0 ->
  step self
  = (Ok (spec_stepped_state self L D),
     {| params := synced_params self;
        dt_s := dt_s self;
        state := spec_stepped_state self L D |}).
Proof.
  intros HL HD Hm.
  unfold step. unfold bind at 1. rewrite sync_params_from_state_run.
  unfold bind at 1, self_params at 1. cbn [params].
  unfold bind at 1, lift at 1. rewrite HL.
  unfold bind at 1, lift at 1. rewrite HD.
  cbv zeta.
  unfold bind at 1, lift at 1. rewrite py_div_ok by exact Hm.
  unfold bind, assign_state, self_state, self_dt_s, lift, ret.
  cbn [params state dt_s].
  unfold spec_stepped_state, clamp. cbv zeta.
  destruct (Rgt_dec (compute_weight (synced_params self)) 0) as [HW | HW].
  - rewrite py_div_ok by lra.
    rewrite !py_max_Rmax, py_min_Rmin. cbn.
    replace 0.0 with 0 by lra.
    rewrite (Rmin_comm ((compute_thrust (synced_params self) - D)
                        / compute_weight (synced_params self)) 0.5).
    reflexivity.
  - rewrite !py_max_Rmax. cbn. reflexivity.
Qed.

(** With a mass of exactly zero the division of line 80 raises, after the
    parameters were synchronised and before the state is touched. *)
Lemma step_zero_mass (self : t) (D : R) :
  compute_drag (synced_params self) = Ok D ->
  AircraftParams.mass_kg (params self) = 0 ->
  step self
  = (Raise ZeroDivisionError,
     {| params := synced_params self; dt_s := dt_s self; state := state self |}).
Proof.
  intros HD Hm.
  destruct (compute_lift_total (synced_params self)) as (L & HL).
  unfold step. unfold bind at 1. rewrite sync_params_from_state_run.
  unfold bind at 1, self_params at 1. cbn [params].
  unfold bind at 1, lift at 1. rewrite HL.
  unfold bind at 1, lift at 1. rewrite HD.
  cbv zeta.
  unfold bind at 1, lift at 1.
  replace (AircraftParams.mass_kg (synced_params self)) with 0
    by (symmetry; exact Hm).
  rewrite py_div_zero. reflexivity.
Qed.

(** An exception of [compute_drag] is the exception of [step], again
    after the synchronisation and before the state is touched. *)
Lemma step_drag_raises (self : t) (e : exn) :
  compute_drag (synced_params self) = Raise e ->
  step self
  = (Raise e,
     {| params := synced_params self; dt_s := dt_s self; state := state self |}).
Proof.
  intros HD.
  destruct (compute_lift_total (synced_params self)) as (L & HL).
  unfold step. unfold bind at 1. rewrite sync_params_from_state_run.
  unfold bind at 1, self_params at 1. cbn [params].
  unfold bind at 1, lift at 1. rewrite HL.
  unfold bind at 1, lift at 1. rewrite HD. reflexivity.
Qed.

(** [step] returns whenever the drag is returned and the mass is not
    zero, a negative mass included; what it returns is the state object of
    the simulator. *)
Lemma step_returns (self : t) (D : R) :
  compute_drag (synced_params self) = Ok D ->
  AircraftParams.mass_kg (params self) <> 0 ->
  exists L,
    compute_lift (synced_params self) = Ok L
    /\ step self
       = (Ok (spec_stepped_state self L D),
          {| params := synced_params self;
             dt_s := dt_s self;
             state := spec_stepped_state self L D |}).
Proof.
  intros HD Hm.
  destruct (compute_lift_total (synced_params self)) as (L & HL).
  exists L. split; [exact HL | now apply step_run].
Qed.

(** The three ways a [step] ends. *)
Lemma step_cases (self : t) :
  (exists e,
      compute_drag (synced_params self) = Raise e
      /\ step self
         = (Raise e,
            {| params := synced_params self; dt_s := dt_s self;
               state := state self |}))
  \/ (exists D,
         compute_drag (synced_params self) = Ok D
         /\ AircraftParams.mass_kg (params self) = 0
         /\ step self
            = (Raise ZeroDivisionError,
               {| params := synced_params self; dt_s := dt_s self;
                  state := state self |}))
  \/ (exists L D,
         compute_lift (synced_params self) = Ok L
         /\ compute_drag (synced_params self) = Ok D
         /\ AircraftParams.mass_kg (params self) <> 0
         /\ step self
            = (Ok (spec_stepped_state self L D),
               {| params := synced_params self; dt_s := dt_s self;
                  state := spec_stepped_state self L D |})).
Proof.
  destruct (compute_drag (synced_params self)) as [D | e] eqn:HD.
  - destruct (Req_dec_T (AircraftParams.mass_kg (params self)) 0) as [Hm | Hm].
    + right. left. exists D. repeat split; try assumption.
      now apply (step_zero_mass self D).
    + right. right.
      destruct (step_returns self D HD Hm) as (L & HL & Hrun).
      exists L, D. repeat split; assumption.
  - left. exists e. split; [reflexivity | now apply step_drag_raises].
Qed.

(** With the default polar and an angle of attack between 0 and 3
    degrees, [step] returns for every mass that is not zero. *)
Lemma step_returns_default_polar (self : t) :
  AircraftParams.cl_alpha (params self) = 5.5 ->
  AircraftParams.aspect_ratio (params self) = 8.0 ->
  AircraftParams.oswald_efficiency (params self) = 0.82 ->
  0 <= SimulationState.angle_of_attack_deg (state self) <= 3.0 ->
  AircraftParams.mass_kg (params self) <> 0 ->
  exists L D,
    compute_lift (synced_params self) = Ok L
    /\ compute_drag (synced_params self) = Ok D
    /\ step self
       = (Ok (spec_stepped_state self L D),
          {| params := synced_params self;
             dt_s := dt_s self;
             state := spec_stepped_state self L D |}).
Proof.
  intros Hcla Har He Halpha Hm.
  destruct (compute_drag_default_polar (synced_params self)) as (D & HD);
    try assumption.
  destruct (step_returns self D HD Hm) as (L & HL & Hrun).
  exists L, D. repeat split; assumption.
Qed.

(** Whatever the outcome, [step] leaves the synchronised parameters, the
    time step and the state's angle of attack. *)
Lemma step_snd (self : t) :
  params (snd (step self)) = synced_params self
  /\ dt_s (snd (step self)) = dt_s self
  /\ SimulationState.angle_of_attack_deg (state (snd (step self)))
     = SimulationState.angle_of_attack_deg (state self).
Proof.
  destruct (step_cases self)
    as [(e & _ & ->) | [(D & _ & _ & ->) | (L & D & _ & _ & _ & ->)]];
    cbn; auto.
Qed.

(** The constructor hands [step] parameters that are already in step with
    the state. *)
Lemma synced_params_init (p : AircraftParams.t) (dt : R) :
  synced_params (__init__ p dt) = p.
Proof. destruct p. reflexivity. Qed.

(** C1, as the specification states it, fails for an angle of attack of
    1e200 degrees: the lift coefficient is beyond 1e198, [cl ** 2] raises
    [OverflowError] in [compute_drag], and [step] yields no state. *)
Lemma step_once_overflow_counterexample :
  ~ exists s' self',
      step (__init__ (AircraftParams.set_angle_of_attack_deg 1e200
                        AircraftParams.default) 0.1)
      = (Ok s', self').
Proof.
  intros (s' & self' & Hstep).
  rewrite (step_drag_raises _ OverflowError) in Hstep; [discriminate Hstep |].
  rewrite synced_params_init.
  destruct (compute_drag_of_coefficient
              (AircraftParams.set_angle_of_attack_deg 1e200
                 AircraftParams.default)) as (rho & _ & ->).
  cbn [AircraftParams.angle_of_attack_deg AircraftParams.cl_alpha
       AircraftParams.cd0 AircraftParams.aspect_ratio
       AircraftParams.oswald_efficiency
       AircraftParams.set_angle_of_attack_deg AircraftParams.default].
  rewrite drag_coefficient_overflow; [reflexivity | lra | lra |].
  unfold lift_coefficient, radians.
  pose proof PI_gt_3 as Hpi.
  assert (Hcl : 9e198 <= 5.5 * (1e200 * (PI / 180))) by lra.
  apply Rle_trans with (9e198 * 9e198).
  - unfold FLOAT_OVERFLOW, float_overflow_Z. lra.
  - apply Rmult_le_compat; lra.
Qed.

(** C1, amended: for a parameter record whose mass is not zero and on
    which [compute_drag] returns, one [step] after construction gives the
    airspeed, altitude and elapsed time of the documented formulas applied
    to the initial parameters: [a = (T - D)/mass],
    [v_new = max(5.0, v_old + a*dt)], the altitude
    [max(0, altitude_old + v_new * clamp((T-D)/W, -0.5, 0.5) * dt)] when
    [W > 0] and unchanged otherwise, the time [dt]; and [L], [D], [T], [W]
    and [a] are in the cached-force fields. *)
Theorem step_once_matches_formulas (p : AircraftParams.t) (dt D : R) :
  AircraftParams.mass_kg p <> 0 ->
  compute_drag p = Ok D ->
  exists L self',
    compute_lift p = Ok L
    /\ step (__init__ p dt) = (Ok (state self'), self')
    /\ let T := compute_thrust p in
       let W := compute_weight p in
       let a := (T - D) / AircraftParams.mass_kg p in
       let v_new := Rmax 5.0 (AircraftParams.airspeed_m_s p + a * dt) in
       SimulationState.airspeed_m_s (state self') = v_new
       /\ SimulationState.altitude_m (state self')
          = (if Rgt_dec W 0
             then Rmax 0 (AircraftParams.altitude_m p
                          + v_new * clamp ((T - D) / W) (-0.5) 0.5 * dt)
             else AircraftParams.altitude_m p)
       /\ SimulationState.time_s (state self') = dt
       /\ SimulationState.lift_N (state self') = L
       /\ SimulationState.drag_N (state self') = D
       /\ SimulationState.thrust_N (state self') = T
       /\ SimulationState.weight_N (state self') = W
       /\ SimulationState.acceleration_m_s2 (state self') = a.
Proof.
  intros Hm HD.
  destruct (step_returns (__init__ p dt) D) as (L & HL & Hstep).
  { now rewrite synced_params_init. }
  { exact Hm. }
  rewrite synced_params_init in HL.
  exists L.
  exists {| params := synced_params (__init__ p dt);
            dt_s := dt_s (__init__ p dt);
            state := spec_stepped_state (__init__ p dt) L D |}.
  split; [exact HL |].
  split; [exact Hstep |].
  cbn [state]. unfold spec_stepped_state. cbv zeta.
  rewrite synced_params_init.
  cbn. repeat split; try reflexivity. lra.
Qed.

Lemma step_once_matches_formulas_witness :
  exists L D self',
    compute_lift AircraftParams.default = Ok L
    /\ compute_drag AircraftParams.default = Ok D
    /\ step (__init__ AircraftParams.default 0.1) = (Ok (state self'), self')
    /\ SimulationState.airspeed_m_s (state self')
       = Rmax 5.0 (50.0 + (compute_thrust AircraftParams.default - D)
                          / 1000.0 * 0.1)
    /\ SimulationState.time_s (state self') = 0.1.
Proof.
  destruct (compute_drag_default_polar AircraftParams.default) as (D & HD);
    try reflexivity.
  { cbn. lra. }
  destruct (step_once_matches_formulas AircraftParams.default 0.1 D)
    as (L & self' & HL & Hstep & Hv & _ & Ht & _).
  - cbn. lra.
  - exact HD.
  - exists L, D, self'. repeat split; assumption.
Defined.

(** C3, the failing case: with a mass of zero, and so a weight of zero,
    [step] raises [ZeroDivisionError] at the division by the mass; the
    guard [W > 0] further down protects only the division by the weight. *)
Theorem step_zero_mass_raises :
  step (__init__ (AircraftParams.set_mass_kg 0.0 AircraftParams.default) 0.1)
  = (Raise ZeroDivisionError,
     __init__ (AircraftParams.set_mass_kg 0.0 AircraftParams.default) 0.1).
Proof.
  destruct (compute_drag_default_polar
              (AircraftParams.set_mass_kg 0.0 AircraftParams.default))
    as (D & HD); try reflexivity.
  { cbn. lra. }
  rewrite (step_zero_mass _ D).
  - reflexivity.
  - rewrite synced_params_init. exact HD.
  - cbn. lra.
Qed.

(** What a returning [step] did. *)
Lemma step_Ok_inv (self : t) (s' : SimulationState.t) (self' : t) :
  step self = (Ok s', self') ->
  AircraftParams.mass_kg (params self) <> 0
  /\ exists L D,
       s' = spec_stepped_state self L D
       /\ self' = {| params := synced_params self;
                     dt_s := dt_s self;
                     state := s' |}.
Proof.
  intros Hstep.
  destruct (step_cases self)
    as [(e & _ & Hrun) | [(D & _ & _ & Hrun) | (L & D & _ & _ & Hm & Hrun)]];
    rewrite Hrun in Hstep; try discriminate Hstep.
  split; [exact Hm |].
  injection Hstep as <- <-.
  exists L, D. split; reflexivity.
Qed.

Lemma compute_weight_synced (self : t) :
  compute_weight (synced_params self) = compute_weight (params self).
Proof. reflexivity. Qed.

(** C7, as the specification states it, fails twice.  The constructor
    copies airspeed and altitude from the parameters without flooring
    them; and with a weight that is not positive [step] leaves the
    altitude as it was, below zero if it was. *)
Lemma state_invariant_counterexample :
  ~ state_invariant
      (state (__init__ (AircraftParams.set_airspeed_m_s 1.0
                          AircraftParams.default) 0.1))
  /\ exists s' self',
       step (__init__ (AircraftParams.set_mass_kg (-1000.0)
                         (AircraftParams.set_altitude_m (-100.0)
                            AircraftParams.default)) 0.1)
       = (Ok s', self')
       /\ ~ state_invariant s'.
Proof.
  split.
  - unfold state_invariant. cbn. lra.
  - set (self := __init__ _ 0.1).
    destruct (step_returns_default_polar self) as (L & D & _ & _ & Hrun);
      try reflexivity.
    { cbn. lra. }
    { cbn. lra. }
    eexists. eexists. split; [exact Hrun |].
    unfold state_invariant, spec_stepped_state. cbv zeta.
    cbn [SimulationState.altitude_m SimulationState.airspeed_m_s].
    destruct (Rgt_dec (compute_weight (synced_params self)) 0) as [HW | HW].
    + exfalso. revert HW. unfold compute_weight, GRAVITY. cbn. lra.
    + cbn. lra.
Qed.

(** The floors of one step: the airspeed always, the altitude under a
    positive weight or from an altitude that was not negative. *)
Lemma spec_stepped_state_floors (self : t) (L D : R) :
  5.0 <= SimulationState.airspeed_m_s (spec_stepped_state self L D)
  /\ (compute_weight (params self) > 0
      \/ 0.0 <= SimulationState.altitude_m (state self) ->
      0.0 <= SimulationState.altitude_m (spec_stepped_state self L D)).
Proof.
  split.
  - cbn. apply Rmax_l.
  - intros Hpre. unfold spec_stepped_state. cbv zeta.
    cbn [SimulationState.altitude_m].
    rewrite compute_weight_synced.
    destruct (Rgt_dec (compute_weight (params self)) 0) as [HW | HW].
    + replace 0.0 with 0 by lra. apply Rmax_l.
    + destruct Hpre as [HW' | Hpre]; [contradiction | exact Hpre].
Qed.

Lemma step_preserves_state_invariant (self : t) :
  state_invariant (state self) -> state_invariant (state (snd (step self))).
Proof.
  intros Hinv.
  destruct (step_cases self)
    as [(e & _ & ->) | [(D & _ & _ & ->) | (L & D & _ & _ & _ & ->)]];
    cbn [snd state]; try exact Hinv.
  destruct (spec_stepped_state_floors self L D) as (Hv & Hh).
  destruct Hinv as (_ & Halt). split; [exact Hv | apply Hh; now right].
Qed.

(** Started from parameters that respect the two floors, every simulator
    the caller can reach has a state that respects them. *)
Lemma state_invariant_reachable (p0 : AircraftParams.t) (dt : R) (self : t) :
  5.0 <= AircraftParams.airspeed_m_s p0 ->
  0.0 <= AircraftParams.altitude_m p0 ->
  reachable p0 dt self ->
  state_invariant (state self).
Proof.
  intros Hv Hh Hreach.
  induction Hreach as [| self _ IH | self p' _ IH].
  - split; assumption.
  - now apply step_preserves_state_invariant.
  - exact IH.
Qed.

(** C7, amended: the state of a new simulator carries the airspeed and
    the altitude of the parameter record as they are, so it satisfies the
    invariant exactly when they do; after every [step] that returns, from
    any prior state, the airspeed is at least 5.0, and the altitude is at
    least 0.0 when the weight is positive or the altitude was at least 0.0
    before the step.  So [step] preserves the invariant. *)
Theorem state_invariant_amended :
  (forall p dt,
      state_invariant (state (__init__ p dt))
      <-> 5.0 <= AircraftParams.airspeed_m_s p
          /\ 0.0 <= AircraftParams.altitude_m p)
  /\ (forall self s' self',
         step self = (Ok s', self') ->
         5.0 <= SimulationState.airspeed_m_s s'
         /\ (compute_weight (params self) > 0
             \/ 0.0 <= SimulationState.altitude_m (state self) ->
             0.0 <= SimulationState.altitude_m s')
         /\ (state_invariant (state self) -> state_invariant s')).
Proof.
  split.
  - intros p dt. unfold state_invariant. cbn. tauto.
  - intros self s' self' Hstep.
    destruct (step_Ok_inv _ _ _ Hstep) as (_ & L & D & -> & _).
    destruct (spec_stepped_state_floors self L D) as (Hv & Hh).
    split; [exact Hv | split; [exact Hh |]].
    intros [_ Halt]. split; [exact Hv | apply Hh; now right].
Qed.

Lemma state_invariant_amended_witness :
  exists s' self',
    step (__init__ AircraftParams.default 0.1) = (Ok s', self')
    /\ state_invariant s'.
Proof.
  destruct (step_returns_default_polar (__init__ AircraftParams.default 0.1))
    as (L & D & _ & _ & Hrun); try reflexivity.
  - cbn. lra.
  - cbn. lra.
  - eexists. eexists. split; [exact Hrun |].
    apply (proj2 state_invariant_amended _ _ _ Hrun).
    unfold state_invariant. cbn. lra.
Defined.

(** C9: [step] leaves the state's angle of attack and the caller's
    parameter fields (mass, wing area, aspect ratio, [cl_alpha], [cd0],
    Oswald efficiency, maximum thrust, thrust ratio) as they were; the
    parameter fields it writes are altitude, airspeed and angle of attack,
    each overwritten with the state's value.  This holds for the simulator
    that [step] leaves behind, whether it returned or raised. *)
Theorem step_frame (self : t) :
  let self' := snd (step self) in
  SimulationState.angle_of_attack_deg (state self')
  = SimulationState.angle_of_attack_deg (state self)
  /\ AircraftParams.mass_kg (params self') = AircraftParams.mass_kg (params self)
  /\ AircraftParams.wing_area_m2 (params self')
     = AircraftParams.wing_area_m2 (params self)
  /\ AircraftParams.aspect_ratio (params self')
     = AircraftParams.aspect_ratio (params self)
  /\ AircraftParams.cl_alpha (params self') = AircraftParams.cl_alpha (params self)
  /\ AircraftParams.cd0 (params self') = AircraftParams.cd0 (params self)
  /\ AircraftParams.oswald_efficiency (params self')
     = AircraftParams.oswald_efficiency (params self)
  /\ AircraftParams.max_thrust_N (params self')
     = AircraftParams.max_thrust_N (params self)
  /\ AircraftParams.thrust_ratio (params self')
     = AircraftParams.thrust_ratio (params self)
  /\ AircraftParams.altitude_m (params self')
     = SimulationState.altitude_m (state self)
  /\ AircraftParams.airspeed_m_s (params self')
     = SimulationState.airspeed_m_s (state self)
  /\ AircraftParams.angle_of_attack_deg (params self')
     = SimulationState.angle_of_attack_deg (state self).
Proof.
  intros self'. subst self'.
  destruct (step_snd self) as (-> & _ & ->).
  unfold synced_params. cbn. repeat split; reflexivity.
Qed.

(** C10: when [step] returns, the parameter record holds the altitude,
    airspeed and angle of attack that the state had when the step began,
    not those of the state it returns; the next [step] is what copies the
    returned altitude and airspeed into the parameters, one step late. *)
Theorem step_params_lag (self : t) (s' : SimulationState.t) (self' : t) :
  step self = (Ok s', self') ->
  s' = state self'
  /\ AircraftParams.altitude_m (params self')
     = SimulationState.altitude_m (state self)
  /\ AircraftParams.airspeed_m_s (params self')
     = SimulationState.airspeed_m_s (state self)
  /\ AircraftParams.angle_of_attack_deg (params self')
     = SimulationState.angle_of_attack_deg (state self)
  /\ AircraftParams.altitude_m (params (snd (step self')))
     = SimulationState.altitude_m s'
  /\ AircraftParams.airspeed_m_s (params (snd (step self')))
     = SimulationState.airspeed_m_s s'.
Proof.
  intros Hstep.
  destruct (step_Ok_inv _ _ _ Hstep) as (_ & L & D & Hs' & ->).
  destruct (step_snd {| params := synced_params self; dt_s := dt_s self;
                        state := s' |}) as (-> & _ & _).
  unfold synced_params. cbn. repeat split; reflexivity.
Qed.

Lemma step_params_lag_witness :
  exists s' self',
    step (__init__ AircraftParams.default 0.1) = (Ok s', self')
    /\ AircraftParams.airspeed_m_s (params self') = 50.0
    /\ AircraftParams.airspeed_m_s (params (snd (step self')))
       = SimulationState.airspeed_m_s s'.
Proof.
  destruct (step_returns_default_polar (__init__ AircraftParams.default 0.1))
    as (L & D & _ & _ & Hrun); try reflexivity.
  - cbn. lra.
  - cbn. lra.
  - eexists. eexists. split; [exact Hrun |].
    destruct (step_params_lag _ _ _ Hrun) as (_ & _ & Hv & _ & _ & Hv').
    split; [exact Hv | exact Hv'].
Defined.

(** ** A worked step

    The default aircraft at sea level with the angle of attack set to zero,
    so that every quantity is rational: no lift, drag 765.625 N from
    [cd0] alone, thrust 5000 N, weight 9810 N. *)

Lemma compute_lift_zero_alpha :
  compute_lift (AircraftParams.set_angle_of_attack_deg 0.0 AircraftParams.default)
  = Ok 0.
Proof.
  unfold compute_lift. cbn [AircraftParams.altitude_m
    AircraftParams.set_angle_of_attack_deg AircraftParams.default].
  rewrite air_density_sea_level by lra. cbn [result_bind]. cbv zeta.
  f_equal. unfold dynamic_pressure, lift_coefficient, radians, RHO_SEA_LEVEL.
  cbn. lra.
Qed.

Lemma compute_drag_zero_alpha :
  compute_drag (AircraftParams.set_angle_of_attack_deg 0.0 AircraftParams.default)
  = Ok 765.625.
Proof.
  unfold compute_drag. cbn [AircraftParams.altitude_m
    AircraftParams.set_angle_of_attack_deg AircraftParams.default].
  rewrite air_density_sea_level by lra. cbn [result_bind]. cbv zeta.
  cbn [AircraftParams.angle_of_attack_deg AircraftParams.cl_alpha
       AircraftParams.cd0 AircraftParams.aspect_ratio
       AircraftParams.oswald_efficiency AircraftParams.airspeed_m_s
       AircraftParams.wing_area_m2 AircraftParams.set_angle_of_attack_deg
       AircraftParams.default].
  pose proof PI_gt_3 as Hpi.
  rewrite drag_coefficient_induced.
  - cbn [result_bind].
    f_equal. unfold dynamic_pressure, lift_coefficient, radians, RHO_SEA_LEVEL.
    replace (5.5 * (0.0 * (PI / 180))) with 0 by lra.
    unfold Rdiv. rewrite !Rmult_0_l. lra.
  - lra.
  - lra.
  - unfold lift_coefficient, radians.
    replace (5.5 * (0.0 * (PI / 180))) with 0 by lra.
    unfold FLOAT_OVERFLOW, float_overflow_Z. lra.
  - apply induced_divisor_above;
      unfold FLOAT_UNDERFLOW, float_underflow_Z; lra.
Qed.

(** After that one step the state's airspeed is 50.4234375 m/s, while the
    parameter record still says 50: the record is one step behind. *)
Example step_zero_alpha :
  exists s' self',
    step (__init__ (AircraftParams.set_angle_of_attack_deg 0.0
                      AircraftParams.default) 0.1)
    = (Ok s', self')
    /\ SimulationState.drag_N s' = 765.625
    /\ SimulationState.thrust_N s' = 5000
    /\ SimulationState.weight_N s' = 9810
    /\ SimulationState.acceleration_m_s2 s' = 4.234375
    /\ SimulationState.airspeed_m_s s' = 50.4234375
    /\ SimulationState.time_s s' = 0.1
    /\ AircraftParams.airspeed_m_s (params self') = 50
    /\ AircraftParams.airspeed_m_s (params self')
       <> SimulationState.airspeed_m_s (state self').
Proof.
  set (p := AircraftParams.set_angle_of_attack_deg 0.0 AircraftParams.default).
  assert (Hrun := step_run (__init__ p 0.1) 0 765.625).
  rewrite synced_params_init in Hrun.
  specialize (Hrun compute_lift_zero_alpha compute_drag_zero_alpha).
  eexists. eexists. split; [apply Hrun; cbn; lra |].
  assert (HT : compute_thrust p = 5000).
  { unfold compute_thrust. rewrite py_max_Rmax, py_min_Rmin. cbn.
    rewrite Rmin_left by lra. rewrite Rmax_right by lra. lra. }
  assert (HW : compute_weight p = 9810).
  { unfold compute_weight, GRAVITY. cbn. lra. }
  assert (Hv : Rmax 5.0 (50.0 + (5000 - 765.625) / 1000.0 * 0.1) = 50.4234375).
  { rewrite Rmax_right; lra. }
  unfold spec_stepped_state. cbv zeta. rewrite synced_params_init, HT, HW.
  cbn. rewrite Hv. repeat split; lra.
Qed.

(** * Further properties of the code *)

(** ** atmosphere.py: how density and pressure vary with altitude *)

(** With the constants of the source the exponent of the density law,
    [g*M/(R*L) - 1], is negative. *)
Lemma density_exponent_neg :
  GRAVITY * 0.0289644 / (GAS_CONSTANT * LAPSE_RATE) - 1 < 0.
Proof.
  unfold GRAVITY, GAS_CONSTANT, LAPSE_RATE.
  assert (H : 9.81 * 0.0289644 / (287.05 * 0.0065) < 1).
  { apply Rmult_lt_reg_r with (287.05 * 0.0065); [lra |].
    unfold Rdiv. rewrite Rmult_assoc, Rinv_l by lra. lra. }
  lra.
Qed.

Lemma pressure_exponent_neg : - GRAVITY / (GAS_CONSTANT * LAPSE_RATE) < 0.
Proof.
  unfold GRAVITY, GAS_CONSTANT, LAPSE_RATE.
  apply Rmult_lt_reg_r with (287.05 * 0.0065); [lra |].
  unfold Rdiv. rewrite Rmult_assoc, Rinv_l by lra. lra.
Qed.

(** A power with a negative exponent falls as the base grows. *)
Lemma Rpower_neg_exponent_lt (a b c : R) :
  0 < a -> a < b -> c < 0 -> Rpower b c < Rpower a c.
Proof.
  intros Ha Hab Hc. unfold Rpower. apply exp_increasing.
  pose proof (ln_increasing a b Ha Hab). nra.
Qed.

Lemma Rpower_neg_exponent_le (a b c : R) :
  0 < a -> a <= b -> c < 0 -> Rpower b c <= Rpower a c.
Proof.
  intros Ha [Hab | ->] Hc.
  - left. now apply Rpower_neg_exponent_lt.
  - right. reflexivity.
Qed.

Lemma spec_troposphere_density_0 : spec_troposphere_density 0 = RHO_SEA_LEVEL.
Proof.
  unfold spec_troposphere_density, RHO_SEA_LEVEL. cbv zeta.
  replace ((288.15 - 0.0065 * 0) / 288.15) with 1 by (field; lra).
  unfold Rpower. rewrite ln_1, Rmult_0_r, exp_0. lra.
Qed.

Lemma spec_troposphere_density_lt (h1 h2 : R) :
  h1 < h2 -> h2 <= 11000 ->
  spec_troposphere_density h1 < spec_troposphere_density h2.
Proof.
  intros H12 H2. unfold spec_troposphere_density. cbv zeta.
  apply Rmult_lt_compat_l; [lra |].
  apply Rpower_neg_exponent_lt.
  - apply Rdiv_lt_0_compat; lra.
  - unfold Rdiv. apply Rmult_lt_compat_r; lra.
  - exact density_exponent_neg.
Qed.

Lemma stratosphere_density_2718_lt (h1 h2 : R) :
  h1 < h2 -> stratosphere_density_2718 h2 < stratosphere_density_2718 h1.
Proof.
  intros H12. unfold stratosphere_density_2718.
  apply Rmult_lt_compat_l; [apply spec_troposphere_density_pos |].
  apply Rpower_lt; lra.
Qed.

(** The density as a number, by the three branches. *)
Lemma air_density_value (h : R) :
  air_density h
  = Ok (if Rle_dec h 0 then RHO_SEA_LEVEL
        else if Rle_dec h 11000 then spec_troposphere_density h
        else stratosphere_density_2718 h).
Proof.
  destruct (Rle_dec h 0) as [H0 | H0].
  - now apply air_density_sea_level.
  - destruct (Rle_dec h 11000) as [H11 | H11].
    + apply air_density_troposphere; lra.
    + apply air_density_stratosphere; lra.
Qed.

(** From sea level up to 11000 m the density that [air_density] returns
    is at least the sea-level 1.225 and never falls as the altitude grows,
    and over a metre or more it grows: the exponent [g*M/(R*L) - 1] of the
    source is negative, about -0.85. *)
Theorem air_density_nondecreasing_to_11000 (h1 h2 : R) :
  0 <= h1 -> h1 <= h2 -> h2 <= 11000 ->
  exists rho1 rho2,
    air_density h1 = Ok rho1 /\ air_density h2 = Ok rho2
    /\ 1.225 <= rho1 /\ rho1 <= rho2
    /\ (h1 + 1 <= h2 -> rho1 < rho2).
Proof.
  intros H1 H12 H2.
  assert (Hv : forall h, 0 <= h -> h <= 11000 ->
                 air_density h = Ok (spec_troposphere_density h)).
  { intros h Hh0 Hh11. destruct Hh0 as [Hpos | <-].
    - now apply air_density_troposphere.
    - rewrite spec_troposphere_density_0. apply air_density_sea_level. lra. }
  exists (spec_troposphere_density h1), (spec_troposphere_density h2).
  split; [apply Hv; lra | split; [apply Hv; lra |]].
  split; [| split].
  - change 1.225 with RHO_SEA_LEVEL. rewrite <- spec_troposphere_density_0.
    destruct H1 as [Hpos | <-]; [| lra].
    left. apply spec_troposphere_density_lt; lra.
  - destruct H12 as [Hlt | <-]; [| lra].
    left. now apply spec_troposphere_density_lt.
  - intros Hgap. apply spec_troposphere_density_lt; lra.
Qed.

Lemma air_density_nondecreasing_to_11000_witness :
  exists rho1 rho2,
    air_density 0 = Ok rho1 /\ air_density 5000 = Ok rho2
    /\ 1.225 <= rho1 /\ rho1 <= rho2.
Proof.
  destruct (air_density_nondecreasing_to_11000 0 5000)
    as (rho1 & rho2 & H1 & H2 & Hsea & Hle & _); try lra.
  exists rho1, rho2. repeat split; assumption.
Defined.

(** From 11000 m upwards the density never grows with altitude. *)
Theorem air_density_nonincreasing_above_11000 (h1 h2 : R) :
  11000 <= h1 -> h1 <= h2 ->
  exists rho1 rho2,
    air_density h1 = Ok rho1 /\ air_density h2 = Ok rho2 /\ rho2 <= rho1.
Proof.
  intros H1 H12.
  assert (Hv : forall h, 11000 <= h ->
                 air_density h = Ok (stratosphere_density_2718 h)).
  { intros h [Hgt | <-].
    - now apply air_density_stratosphere.
    - rewrite stratosphere_density_seam. apply air_density_troposphere; lra. }
  exists (stratosphere_density_2718 h1), (stratosphere_density_2718 h2).
  split; [apply Hv; lra | split; [apply Hv; lra |]].
  destruct H12 as [Hlt | <-]; [| lra].
  left. now apply stratosphere_density_2718_lt.
Qed.

Lemma air_density_nonincreasing_above_11000_witness :
  exists rho1 rho2,
    air_density 11000 = Ok rho1 /\ air_density 15000 = Ok rho2 /\ rho2 <= rho1.
Proof. apply (air_density_nonincreasing_above_11000 11000 15000); lra. Defined.

(** At every altitude [air_density] returns a density, which is not
    negative and at most the one it returns at 11000 m: the density of
    this model peaks at the seam. *)
Theorem air_density_bounds (h : R) :
  exists rho rho_11,
    air_density h = Ok rho /\ air_density 11000 = Ok rho_11
    /\ 0 <= rho <= rho_11.
Proof.
  exists (if Rle_dec h 0 then RHO_SEA_LEVEL
          else if Rle_dec h 11000 then spec_troposphere_density h
          else stratosphere_density_2718 h).
  exists (spec_troposphere_density 11000).
  split; [apply air_density_value | split].
  - apply air_density_troposphere; lra.
  - destruct (Rle_dec h 0) as [H0 | H0].
    + split; [unfold RHO_SEA_LEVEL; lra |].
      rewrite <- spec_troposphere_density_0.
      left. apply spec_troposphere_density_lt; lra.
    + destruct (Rle_dec h 11000) as [H11 | H11].
      * split; [left; apply spec_troposphere_density_pos |].
        destruct H11 as [Hlt | ->]; [| right; reflexivity].
        left. apply spec_troposphere_density_lt; lra.
      * split.
        -- left. unfold stratosphere_density_2718.
           apply Rmult_lt_0_compat; [apply spec_troposphere_density_pos |].
           unfold Rpower. apply exp_pos.
        -- rewrite <- stratosphere_density_seam.
           left. apply stratosphere_density_2718_lt. lra.
Qed.

Lemma pressure_value (h : R) :
  pressure h
  = Ok (if Rle_dec h 0 then PRESSURE_SEA_LEVEL else spec_barometric_pressure h).
Proof.
  unfold pressure. destruct (Rle_dec h 0) as [H0 | H0]; [reflexivity |].
  cbv zeta. rewrite py_min_Rmin.
  assert (Hmin : 0 <= Rmin 11000 h <= 11000).
  { split; [apply Rmin_glb; lra | apply Rmin_l]. }
  py_ok ltac:(unfold TEMP_SEA_LEVEL; lra).
  py_ok ltac:(unfold GAS_CONSTANT, LAPSE_RATE; lra).
  py_ok atmosphere_range.
  unfold spec_barometric_pressure. cbv zeta.
  now rewrite (Rmin_comm h 11000).
Qed.

Lemma spec_barometric_pressure_0 :
  spec_barometric_pressure 0 = PRESSURE_SEA_LEVEL.
Proof.
  unfold spec_barometric_pressure, PRESSURE_SEA_LEVEL. cbv zeta.
  rewrite Rmin_left by lra.
  replace ((288.15 - 0.0065 * 0) / 288.15) with 1 by (field; lra).
  unfold Rpower. rewrite ln_1, Rmult_0_r, exp_0. lra.
Qed.

Lemma spec_barometric_pressure_le (h1 h2 : R) :
  h1 <= h2 -> spec_barometric_pressure h1 <= spec_barometric_pressure h2.
Proof.
  intros H12. unfold spec_barometric_pressure. cbv zeta.
  apply Rmult_le_compat_l; [lra |].
  pose proof (Rmin_r h2 11000) as Hcap.
  assert (Hmin : Rmin h1 11000 <= Rmin h2 11000).
  { apply Rmin_glb; [| apply Rmin_r].
    apply Rle_trans with h1; [apply Rmin_l | exact H12]. }
  apply Rpower_neg_exponent_le.
  - apply Rdiv_lt_0_compat; lra.
  - unfold Rdiv. apply Rmult_le_compat_r; lra.
  - exact pressure_exponent_neg.
Qed.

(** [pressure] returns a value at every altitude; the value is never
    below the sea-level 101325 and never falls as the altitude grows: the
    exponent [-g/(R*L)] of the source is negative while [T/T0 <= 1]. *)
Theorem pressure_nondecreasing (h1 h2 : R) :
  h1 <= h2 ->
  exists p1 p2,
    pressure h1 = Ok p1 /\ pressure h2 = Ok p2 /\ 101325 <= p1 /\ p1 <= p2.
Proof.
  intros H12.
  exists (if Rle_dec h1 0 then PRESSURE_SEA_LEVEL
          else spec_barometric_pressure h1).
  exists (if Rle_dec h2 0 then PRESSURE_SEA_LEVEL
          else spec_barometric_pressure h2).
  split; [apply pressure_value | split; [apply pressure_value |]].
  assert (Hsea : forall h, 0 <= h -> 101325 <= spec_barometric_pressure h).
  { intros h Hh. change 101325 with PRESSURE_SEA_LEVEL.
    rewrite <- spec_barometric_pressure_0.
    now apply spec_barometric_pressure_le. }
  destruct (Rle_dec h1 0) as [H1 | H1], (Rle_dec h2 0) as [H2 | H2].
  - unfold PRESSURE_SEA_LEVEL. lra.
  - split; [unfold PRESSURE_SEA_LEVEL; lra |].
    apply Hsea. lra.
  - lra.
  - split; [apply Hsea; lra | now apply spec_barometric_pressure_le].
Qed.

Lemma pressure_nondecreasing_witness :
  exists p1 p2,
    pressure 2000 = Ok p1 /\ pressure 20000 = Ok p2
    /\ 101325 <= p1 /\ p1 <= p2.
Proof. apply (pressure_nondecreasing 2000 20000). lra. Defined.

(** ** forces.py: bounds and symmetries of the forces *)

Lemma compute_lift_value (p : AircraftParams.t) (rho : R) :
  air_density (AircraftParams.altitude_m p) = Ok rho ->
  compute_lift p
  = Ok (dynamic_pressure rho (AircraftParams.airspeed_m_s p)
        * AircraftParams.wing_area_m2 p
        * lift_coefficient (radians (AircraftParams.angle_of_attack_deg p))
            (AircraftParams.cl_alpha p)).
Proof. intros Hrho. unfold compute_lift. now rewrite Hrho. Qed.

Lemma drag_coefficient_ge_cd0 (cl cd0 aspect_ratio oswald_efficiency cd : R) :
  drag_coefficient cl cd0 aspect_ratio oswald_efficiency = Ok cd ->
  cd0 <= cd /\ (cl = 0 -> cd = cd0).
Proof.
  intros Hcd.
  destruct (Rle_dec aspect_ratio 0) as [Har | Har].
  { rewrite drag_coefficient_degenerate in Hcd by now left.
    injection Hcd as <-. split; [lra | reflexivity]. }
  destruct (Rle_dec oswald_efficiency 0) as [He | He].
  { rewrite drag_coefficient_degenerate in Hcd by now right.
    injection Hcd as <-. split; [lra | reflexivity]. }
  destruct (Rle_dec FLOAT_OVERFLOW (cl * cl)) as [Hov | Hov].
  { rewrite drag_coefficient_overflow in Hcd by lra. discriminate Hcd. }
  destruct (Req_dec_T (float_mul (float_mul PI oswald_efficiency) aspect_ratio) 0)
    as [Hdiv | Hdiv].
  { rewrite drag_coefficient_underflow in Hcd by lra. discriminate Hcd. }
  rewrite drag_coefficient_induced in Hcd by lra.
  injection Hcd as <-.
  assert (Hden : 0 < PI * oswald_efficiency * aspect_ratio).
  { pose proof PI_RGT_0.
    apply Rmult_lt_0_compat; [apply Rmult_lt_0_compat |]; lra. }
  split.
  - assert (0 <= cl * cl / (PI * oswald_efficiency * aspect_ratio)).
    { apply Rmult_le_pos; [nra |]. left. now apply Rinv_0_lt_compat. }
    lra.
  - intros ->. unfold Rdiv. rewrite !Rmult_0_l. lra.
Qed.

Lemma drag_coefficient_even (cl cd0 aspect_ratio oswald_efficiency : R) :
  drag_coefficient (- cl) cd0 aspect_ratio oswald_efficiency
  = drag_coefficient cl cd0 aspect_ratio oswald_efficiency.
Proof.
  unfold drag_coefficient.
  destruct (Rle_dec aspect_ratio 0); [reflexivity |].
  destruct (Rle_dec oswald_efficiency 0); [reflexivity |].
  rewrite !py_pow_2. now replace (- cl * - cl) with (cl * cl) by ring.
Qed.

(** A drag coefficient that is returned is never below [cd0]: the induced
    term is a square over a positive number, or absent; and without lift
    it is [cd0] itself. *)
Theorem drag_coefficient_at_least_cd0
  (cl cd0 aspect_ratio oswald_efficiency cd : R) :
  drag_coefficient cl cd0 aspect_ratio oswald_efficiency = Ok cd ->
  cd0 <= cd /\ (cl = 0 -> cd = cd0).
Proof. apply drag_coefficient_ge_cd0. Qed.

Lemma drag_coefficient_at_least_cd0_witness :
  exists cd, drag_coefficient 0.3 0.025 8 0.82 = Ok cd /\ 0.025 <= cd.
Proof.
  pose proof PI_gt_3 as Hpi.
  assert (Hcd : drag_coefficient 0.3 0.025 8 0.82
                = Ok (0.025 + 0.3 * 0.3 / (PI * 0.82 * 8))).
  { apply drag_coefficient_induced.
    - lra.
    - lra.
    - unfold FLOAT_OVERFLOW, float_overflow_Z. lra.
    - apply induced_divisor_above;
        unfold FLOAT_UNDERFLOW, float_underflow_Z; lra. }
  eexists. split; [exact Hcd |].
  apply (drag_coefficient_at_least_cd0 _ _ _ _ _ Hcd).
Defined.

(** The throttle is clamped to [0, 1] before it scales the maximum
    thrust: no thrust at or below 0, the maximum at or above 1, and with a
    maximum thrust that is not negative the thrust lies between 0 and it. *)
Theorem compute_thrust_clamped (p : AircraftParams.t) :
  (AircraftParams.thrust_ratio p <= 0 -> compute_thrust p = 0)
  /\ (0 <= AircraftParams.thrust_ratio p <= 1 ->
      compute_thrust p
      = AircraftParams.max_thrust_N p * AircraftParams.thrust_ratio p)
  /\ (1 <= AircraftParams.thrust_ratio p ->
      compute_thrust p = AircraftParams.max_thrust_N p)
  /\ (0 <= AircraftParams.max_thrust_N p ->
      0 <= compute_thrust p <= AircraftParams.max_thrust_N p).
Proof.
  unfold compute_thrust. rewrite py_max_Rmax, py_min_Rmin.
  set (r := AircraftParams.thrust_ratio p).
  set (m := AircraftParams.max_thrust_N p).
  assert (Hc : 0 <= Rmax 0.0 (Rmin r 1.0) <= 1).
  { split.
    - apply Rle_trans with 0.0; [lra | apply Rmax_l].
    - apply Rmax_lub; [lra |]. apply Rle_trans with 1.0; [apply Rmin_r | lra]. }
  repeat split.
  - intros Hr. rewrite Rmin_left by lra. rewrite Rmax_left by lra. lra.
  - intros [H0 H1]. rewrite Rmin_left by lra. rewrite Rmax_right by lra.
    reflexivity.
  - intros Hr. rewrite Rmin_right by lra. rewrite Rmax_right by lra. lra.
  - nra.
  - nra.
Qed.

Lemma compute_thrust_clamped_witness :
  compute_thrust (AircraftParams.set_thrust_ratio (-0.2) AircraftParams.default)
  = 0
  /\ compute_thrust (AircraftParams.set_thrust_ratio 0.7 AircraftParams.default)
     = 5000.0 * 0.7
  /\ compute_thrust (AircraftParams.set_thrust_ratio 1.5 AircraftParams.default)
     = 5000.0
  /\ 0 <= compute_thrust AircraftParams.default <= 5000.0.
Proof.
  split; [| split; [| split]].
  - apply (proj1 (compute_thrust_clamped
                    (AircraftParams.set_thrust_ratio (-0.2)
                       AircraftParams.default))).
    cbn. lra.
  - apply (proj1 (proj2 (compute_thrust_clamped
                           (AircraftParams.set_thrust_ratio 0.7
                              AircraftParams.default)))).
    cbn. lra.
  - apply (proj1 (proj2 (proj2 (compute_thrust_clamped
                                  (AircraftParams.set_thrust_ratio 1.5
                                     AircraftParams.default))))).
    cbn. lra.
  - apply (proj2 (proj2 (proj2 (compute_thrust_clamped
                                  AircraftParams.default)))).
    cbn. lra.
Defined.

(** Mirroring the angle of attack flips the sign of the lift and leaves
    [compute_drag] as it is, whether it returns or raises: the lift is
    linear in the angle, with no stall, and the drag depends on it through
    its square only. *)
Theorem mirrored_angle_of_attack (p : AircraftParams.t) :
  let p' :=
    AircraftParams.set_angle_of_attack_deg
      (- AircraftParams.angle_of_attack_deg p) p in
  exists L,
    compute_lift p = Ok L
    /\ compute_lift p' = Ok (- L)
    /\ compute_drag p' = compute_drag p.
Proof.
  intros p'.
  destruct (compute_drag_of_coefficient p) as (rho & Hrho & ->).
  destruct (compute_drag_of_coefficient p') as (rho' & Hrho' & ->).
  assert (Heq : rho' = rho).
  { change (AircraftParams.altitude_m p') with (AircraftParams.altitude_m p)
      in Hrho'.
    rewrite Hrho in Hrho'. now injection Hrho'. }
  subst rho'.
  eexists.
  split; [apply (compute_lift_value p rho Hrho) | split].
  - rewrite (compute_lift_value p' rho Hrho). f_equal.
    subst p'. cbn. unfold lift_coefficient, radians. ring.
  - subst p'. cbn.
    replace (lift_coefficient
               (radians (- AircraftParams.angle_of_attack_deg p))
               (AircraftParams.cl_alpha p))
      with (- lift_coefficient
                (radians (AircraftParams.angle_of_attack_deg p))
                (AircraftParams.cl_alpha p))
      by (unfold lift_coefficient, radians; ring).
    now rewrite drag_coefficient_even.
Qed.

(** ** simulation.py: failure, frame and dynamics of a step *)

(** The two ways [step] fails, in this order: an exception of
    [compute_drag] is the exception of [step]; otherwise a mass of zero is
    a [ZeroDivisionError].  Both leave the state untouched.  In every other
    case [step] returns, and what it returns is the state it has stored. *)
Theorem step_failures (self : t) :
  match compute_drag (synced_params self) with
  | Raise e =>
      fst (step self) = Raise e /\ state (snd (step self)) = state self
  | Ok _ =>
      (AircraftParams.mass_kg (params self) = 0
       /\ fst (step self) = Raise ZeroDivisionError
       /\ state (snd (step self)) = state self)
      \/ (AircraftParams.mass_kg (params self) <> 0
          /\ fst (step self) = Ok (state (snd (step self))))
  end.
Proof.
  destruct (step_cases self)
    as [(e & HD & ->) | [(D & HD & Hm & ->) | (L & D & _ & HD & Hm & ->)]];
    rewrite HD; cbn; auto.
Qed.

(** What [step] does depends on the synchronised parameters, the time
    step and the state, and on nothing else of the simulator. *)
Lemma step_congruence (self1 self2 : t) :
  synced_params self1 = synced_params self2 ->
  dt_s self1 = dt_s self2 ->
  state self1 = state self2 ->
  step self1 = step self2.
Proof.
  intros Hp Hdt Hs.
  assert (Hspec : forall L D,
             spec_stepped_state self1 L D = spec_stepped_state self2 L D).
  { intros L D. unfold spec_stepped_state. now rewrite Hp, Hdt, Hs. }
  assert (Hmass : AircraftParams.mass_kg (params self1)
                  = AircraftParams.mass_kg (params self2)).
  { change (AircraftParams.mass_kg (synced_params self1)
            = AircraftParams.mass_kg (synced_params self2)).
    now rewrite Hp. }
  destruct (step_cases self2)
    as [(e & HD & ->) | [(D & HD & Hm & ->) | (L & D & HL & HD & Hm & ->)]].
  - rewrite (step_drag_raises self1 e) by congruence. now rewrite Hp, Hdt, Hs.
  - rewrite (step_zero_mass self1 D) by congruence. now rewrite Hp, Hdt, Hs.
  - rewrite (step_run self1 L D) by congruence. now rewrite Hspec, Hp, Hdt.
Qed.

(** The state is the authority for the flight condition: whatever a
    caller has written to the altitude, airspeed and angle of attack of
    the parameter record (through [set_params] or directly), the next
    [step] overwrites it before it reads it, and runs as if nothing had
    been written. *)
Theorem step_ignores_params_flight_condition (self : t) (h v a : R) :
  step {| params :=
            AircraftParams.set_altitude_m h
              (AircraftParams.set_airspeed_m_s v
                 (AircraftParams.set_angle_of_attack_deg a (params self)));
          dt_s := dt_s self;
          state := state self |}
  = step self.
Proof. apply step_congruence; reflexivity. Qed.

(** The cached forces and the acceleration of the state are outputs only:
    a step that returns overwrites them without reading them, so with any
    other values in them before the step it returns the same state and
    leaves the same simulator. *)
Theorem step_ignores_cached_forces
  (self : t) (l d th w acc : R) (s' : SimulationState.t) (self' : t) :
  step self = (Ok s', self') ->
  step {| params := params self;
          dt_s := dt_s self;
          state :=
            SimulationState.set_lift_N l
              (SimulationState.set_drag_N d
                 (SimulationState.set_thrust_N th
                    (SimulationState.set_weight_N w
                       (SimulationState.set_acceleration_m_s2 acc
                          (state self))))) |}
  = (Ok s', self').
Proof.
  intros Hstep.
  destruct (step_cases self)
    as [(e & _ & Hrun) | [(D & _ & _ & Hrun) | (L & D & HL & HD & Hm & Hrun)]];
    rewrite Hrun in Hstep; try discriminate Hstep.
  rewrite <- Hstep.
  rewrite (step_run _ L D); [reflexivity | exact HL | exact HD | exact Hm].
Qed.

Lemma step_ignores_cached_forces_witness :
  step {| params := AircraftParams.default;
          dt_s := 0.1;
          state :=
            SimulationState.set_lift_N 1
              (SimulationState.set_drag_N 2
                 (SimulationState.set_thrust_N 3
                    (SimulationState.set_weight_N 4
                       (SimulationState.set_acceleration_m_s2 5
                          (state (__init__ AircraftParams.default 0.1)))))) |}
  = step (__init__ AircraftParams.default 0.1).
Proof.
  destruct (step_returns_default_polar (__init__ AircraftParams.default 0.1))
    as (L & D & _ & _ & Hrun); try reflexivity.
  - cbn. lra.
  - cbn. lra.
  - rewrite Hrun.
    apply (step_ignores_cached_forces
             (__init__ AircraftParams.default 0.1) 1 2 3 4 5 _ _ Hrun).
Defined.

(** Synchronising twice is synchronising once, it touches neither the
    state nor the time step, and a [step] after it is the [step] without
    it. *)
Theorem sync_params_from_state_absorbed (self : t) :
  let self1 := snd (sync_params_from_state self) in
  snd (sync_params_from_state self1) = self1
  /\ state self1 = state self
  /\ dt_s self1 = dt_s self
  /\ step self1 = step self.
Proof.
  intros self1. subst self1. rewrite !sync_params_from_state_run.
  cbn [snd state dt_s].
  split; [reflexivity | split; [reflexivity | split; [reflexivity |]]].
  apply step_congruence; reflexivity.
Qed.

(** A step that returns adds the time step to the elapsed time, and the
    time step itself stays what it was. *)
Theorem step_advances_time (self : t) (s' : SimulationState.t) (self' : t) :
  step self = (Ok s', self') ->
  SimulationState.time_s s' = SimulationState.time_s (state self) + dt_s self
  /\ dt_s self' = dt_s self.
Proof.
  intros Hstep.
  destruct (step_Ok_inv _ _ _ Hstep) as (_ & L & D & -> & ->).
  split; reflexivity.
Qed.

Lemma step_advances_time_witness :
  exists s' self',
    step (__init__ AircraftParams.default 0.1) = (Ok s', self')
    /\ SimulationState.time_s s' = 0.0 + 0.1
    /\ dt_s self' = 0.1.
Proof.
  destruct (step_returns_default_polar (__init__ AircraftParams.default 0.1))
    as (L & D & _ & _ & Hrun); try reflexivity.
  - cbn. lra.
  - cbn. lra.
  - eexists. eexists. split; [exact Hrun |].
    apply (step_advances_time _ _ _ Hrun).
Defined.



Lemma compute_weight_pos (p : AircraftParams.t) :
  0 < AircraftParams.mass_kg p -> compute_weight p > 0.
Proof. intros Hm. unfold compute_weight, GRAVITY. nra. Qed.

(** Steady flight is a fixed point of the integrator: when the thrust
    equals the drag, with a positive mass, an airspeed at or above the
    floor and an altitude at or above the ground, a step changes neither
    airspeed nor altitude and records a zero acceleration.  The lift plays
    no part in it. *)
Theorem steady_flight_is_fixed_point (self : t) (D : R) :
  compute_drag (synced_params self) = Ok D ->
  compute_thrust (params self) = D ->
  0 < AircraftParams.mass_kg (params self) ->
  5.0 <= SimulationState.airspeed_m_s (state self) ->
  0 <= SimulationState.altitude_m (state self) ->
  exists s' self',
    step self = (Ok s', self')
    /\ SimulationState.airspeed_m_s s' = SimulationState.airspeed_m_s (state self)
    /\ SimulationState.altitude_m s' = SimulationState.altitude_m (state self)
    /\ SimulationState.acceleration_m_s2 s' = 0.
Proof.
  intros HD HT Hm Hv Hh.
  destruct (compute_lift_total (synced_params self)) as (L & HL).
  eexists. eexists. split; [apply (step_run self L D HL HD); lra |].
  unfold spec_stepped_state. cbv zeta.
  change (compute_thrust (synced_params self)) with (compute_thrust (params self)).
  rewrite HT, compute_weight_synced.
  cbn [SimulationState.airspeed_m_s SimulationState.altitude_m
       SimulationState.acceleration_m_s2].
  replace (D - D) with 0 by ring.
  unfold Rdiv. rewrite !Rmult_0_l, Rplus_0_r.
  destruct (Rgt_dec (compute_weight (params self)) 0) as [HW | HW];
    [| elim HW; now apply compute_weight_pos].
  assert (Hc : clamp 0 (-0.5) 0.5 = 0).
  { unfold clamp. rewrite Rmin_right by lra. rewrite Rmax_right by lra.
    reflexivity. }
  rewrite Hc, Rmult_0_r, Rmult_0_l, Rplus_0_r.
  rewrite !Rmax_right by lra. auto.
Qed.

Lemma steady_flight_is_fixed_point_witness :
  exists s' self',
    step (__init__ (AircraftParams.set_max_thrust_N 765.625
                      (AircraftParams.set_angle_of_attack_deg 0.0
                         AircraftParams.default)) 0.1)
    = (Ok s', self')
    /\ SimulationState.airspeed_m_s s' = 50.0
    /\ SimulationState.altitude_m s' = 0.0
    /\ SimulationState.acceleration_m_s2 s' = 0.
Proof.
  apply (steady_flight_is_fixed_point
           (__init__ (AircraftParams.set_max_thrust_N 765.625
                        (AircraftParams.set_angle_of_attack_deg 0.0
                           AircraftParams.default)) 0.1) 765.625).
  - rewrite synced_params_init. exact compute_drag_zero_alpha.
  - unfold compute_thrust. rewrite py_max_Rmax, py_min_Rmin. cbn.
    rewrite Rmin_left by lra. rewrite Rmax_right by lra. lra.
  - cbn. lra.
  - cbn. lra.
  - cbn. lra.
Defined.




(** ** run_simulation.py: the time-stepping loop *)

(** A run of [n + m] steps is a run of [n] followed, unless it failed,
    by a run of [m] on the simulator the first leaves; the rows of the
    second come after those of the first. *)
Theorem time_stepping_app (n m : nat) (self : t) :
  time_stepping (n + m) self
  = let '(rows1, outcome1, self1) := time_stepping n self in
    match outcome1 with
    | Ok _ =>
        let '(rows2, outcome2, self2) := time_stepping m self1 in
        (rows1 ++ rows2, outcome2, self2)
    | Raise e => (rows1, Raise e, self1)
    end.
Proof.
  revert self. induction n as [| n IH]; intros self.
  - cbn. destruct (time_stepping m self) as [[rows outcome] self2].
    reflexivity.
  - cbn [Nat.add time_stepping].
    destruct (step self) as [[s | e] self1]; [| reflexivity].
    rewrite IH.
    destruct (time_stepping n self1) as [[rows1 [[] | e]] self2];
      [| reflexivity].
    destruct (time_stepping m self2) as [[rows2 outcome2] self3].
    reflexivity.
Qed.

(** The drag coefficient that a step computes depends on the state
    through the angle of attack only, which no step changes. *)
Lemma compute_drag_synced_returns (self : t) (cd : R) :
  drag_coefficient
    (lift_coefficient
       (radians (SimulationState.angle_of_attack_deg (state self)))
       (AircraftParams.cl_alpha (params self)))
    (AircraftParams.cd0 (params self))
    (AircraftParams.aspect_ratio (params self))
    (AircraftParams.oswald_efficiency (params self)) = Ok cd ->
  exists D, compute_drag (synced_params self) = Ok D.
Proof.
  intros Hcd.
  destruct (compute_drag_of_coefficient (synced_params self)) as (rho & _ & ->).
  change (AircraftParams.angle_of_attack_deg (synced_params self))
    with (SimulationState.angle_of_attack_deg (state self)).
  change (AircraftParams.cl_alpha (synced_params self))
    with (AircraftParams.cl_alpha (params self)).
  change (AircraftParams.cd0 (synced_params self))
    with (AircraftParams.cd0 (params self)).
  change (AircraftParams.aspect_ratio (synced_params self))
    with (AircraftParams.aspect_ratio (params self)).
  change (AircraftParams.oswald_efficiency (synced_params self))
    with (AircraftParams.oswald_efficiency (params self)).
  rewrite Hcd. eexists. reflexivity.
Qed.

(** If the mass is not zero and [drag_coefficient] returns for the polar
    and the angle of attack the simulator starts with, the loop never
    fails, however long it runs: [n] iterations print [n] rows, every row
    with an airspeed of at least 5.0 and the angle of attack the state
    started with, and the time step and the mass are left as they were. *)
Theorem time_stepping_returns (n : nat) (self : t) (cd : R) :
  AircraftParams.mass_kg (params self) <> 0 ->
  drag_coefficient
    (lift_coefficient
       (radians (SimulationState.angle_of_attack_deg (state self)))
       (AircraftParams.cl_alpha (params self)))
    (AircraftParams.cd0 (params self))
    (AircraftParams.aspect_ratio (params self))
    (AircraftParams.oswald_efficiency (params self)) = Ok cd ->
  exists rows self',
    time_stepping n self = (rows, Ok tt, self')
    /\ List.length rows = n
    /\ dt_s self' = dt_s self
    /\ AircraftParams.mass_kg (params self')
       = AircraftParams.mass_kg (params self)
    /\ SimulationState.angle_of_attack_deg (state self')
       = SimulationState.angle_of_attack_deg (state self)
    /\ forall k s,
         nth_error rows k = Some s ->
         5.0 <= SimulationState.airspeed_m_s s
         /\ SimulationState.angle_of_attack_deg s
            = SimulationState.angle_of_attack_deg (state self).
Proof.
  revert self. induction n as [| n IH]; intros self Hm Hcd.
  - exists [], self. cbn [time_stepping].
    repeat split; try reflexivity; destruct k; discriminate.
  - destruct (compute_drag_synced_returns self cd Hcd) as (D & HD).
    destruct (step_returns self D HD Hm) as (L & _ & Hrun).
    set (s1 := spec_stepped_state self L D) in *.
    set (self1 := {| params := synced_params self; dt_s := dt_s self;
                     state := s1 |}) in *.
    destruct (IH self1) as
      (rows & self' & Hloop & Hlen & Hdt & Hmass & Halpha & Hrows).
    { exact Hm. }
    { exact Hcd. }
    exists (s1 :: rows), self'.
    cbn [time_stepping]. rewrite Hrun, Hloop.
    assert (Hs1 : 5.0 <= SimulationState.airspeed_m_s s1) by apply Rmax_l.
    split; [reflexivity |].
    split; [cbn; now rewrite Hlen |].
    split; [exact Hdt |].
    split; [exact Hmass |].
    split; [rewrite Halpha; reflexivity |].
    intros [| k] s Hk.
    + injection Hk as <-. split; [exact Hs1 | reflexivity].
    + destruct (Hrows k s Hk) as (Hv & Ha).
      split; [exact Hv | rewrite Ha; reflexivity].
Qed.

Lemma time_stepping_returns_witness :
  exists rows self',
    time_stepping 50 (__init__ AircraftParams.default 0.1)
    = (rows, Ok tt, self')
    /\ List.length rows = 50%nat.
Proof.
  pose proof PI_gt_3 as Hpi3. pose proof PI_4 as Hpi4.
  destruct (drag_coefficient_returns
              (lift_coefficient (radians 3.0) 5.5) 0.025 8.0 0.82)
    as (cd & Hcd).
  - unfold lift_coefficient, radians.
    assert (Hcl : 0 <= 5.5 * (3.0 * (PI / 180)) <= 1) by lra.
    apply Rle_lt_trans with 1; [nra |].
    unfold FLOAT_OVERFLOW, float_overflow_Z. lra.
  - intros _. unfold FLOAT_UNDERFLOW, float_underflow_Z. lra.
  - intros _ _. unfold FLOAT_UNDERFLOW, float_underflow_Z. lra.
  - destruct (time_stepping_returns 50 (__init__ AircraftParams.default 0.1) cd)
      as (rows & self' & Hloop & Hlen & _).
    + cbn. lra.
    + exact Hcd.
    + exists rows, self'. split; assumption.
Defined.



(** ** aircraft_params.py: [copy_with] *)

Lemma dict_get_setitem (k k' : string) (v : R) (d : dict) :
  dict_get k (dict_setitem k' v d)
  = if String.eqb k' k then Some v else dict_get k d.
Proof.
  induction d as [| [k0 v0] d IH]; cbn.
  - reflexivity.
  - destruct (String.eqb k0 k') eqn:E0; cbn.
    + apply String.eqb_eq in E0. subst k0.
      destruct (String.eqb k' k); reflexivity.
    + destruct (String.eqb k0 k) eqn:E1.
      * destruct (String.eqb k' k) eqn:E2; [| reflexivity].
        apply String.eqb_eq in E1, E2. subst.
        rewrite String.eqb_refl in E0. discriminate.
      * exact IH.
Qed.

Lemma dict_get_update_notin (k : string) (other d : dict) :
  ~ In k (map fst other) ->
  dict_get k (dict_update d other) = dict_get k d.
Proof.
  revert d. induction other as [| [k' v'] other IH]; intros d Hnotin.
  - reflexivity.
  - cbn in Hnotin. cbn [dict_update fold_left fst snd].
    change (fold_left _ other ?d0) with (dict_update d0 other).
    rewrite IH by tauto. rewrite dict_get_setitem.
    destruct (String.eqb k' k) eqn:E; [| reflexivity].
    apply String.eqb_eq in E. tauto.
Qed.

Lemma dict_get_update_in (k : string) (v : R) (other d : dict) :
  NoDup (map fst other) -> In (k, v) other ->
  dict_get k (dict_update d other) = Some v.
Proof.
  revert d. induction other as [| [k' v'] other IH]; intros d Hnodup Hin.
  - destruct Hin.
  - cbn in Hnodup. inversion Hnodup as [| ? ? Hnotin Hnodup']. subst.
    cbn [dict_update fold_left fst snd].
    change (fold_left _ other ?d0) with (dict_update d0 other).
    destruct Hin as [Heq | Hin].
    + injection Heq as -> ->.
      rewrite dict_get_update_notin by exact Hnotin.
      now rewrite dict_get_setitem, String.eqb_refl.
    + now apply IH.
Qed.

Lemma forallb_dict_setitem (f : string -> bool) (k : string) (v : R) (d : dict) :
  forallb (fun kv => f (fst kv)) (dict_setitem k v d)
  = (f k && forallb (fun kv => f (fst kv)) d)%bool.
Proof.
  induction d as [| [k0 v0] d IH]; cbn.
  - reflexivity.
  - destruct (String.eqb k0 k) eqn:E; cbn.
    + apply String.eqb_eq in E. subst k0.
      destruct (f k); reflexivity.
    + rewrite IH. destruct (f k0), (f k); reflexivity.
Qed.

Lemma forallb_dict_update (f : string -> bool) (other d : dict) :
  forallb (fun kv => f (fst kv)) (dict_update d other)
  = (forallb (fun kv => f (fst kv)) d
     && forallb (fun kv => f (fst kv)) other)%bool.
Proof.
  revert d. induction other as [| [k v] other IH]; intros d.
  - cbn. now rewrite Bool.andb_true_r.
  - cbn [dict_update fold_left fst snd].
    change (fold_left _ other ?d0) with (dict_update d0 other).
    rewrite IH, forallb_dict_setitem. cbn.
    destruct (f k), (forallb (fun kv => f (fst kv)) d); reflexivity.
Qed.

Lemma forallb_false_exists (f : string -> bool) (d : dict) :
  forallb (fun kv => f (fst kv)) d = false
  <-> exists k, In k (map fst d) /\ f k = false.
Proof.
  induction d as [| [k v] d IH]; cbn.
  - split; [discriminate | intros (k & [] & _)].
  - destruct (f k) eqn:E; cbn.
    + rewrite IH. split.
      * intros (k' & Hin & Hf). exists k'. auto.
      * intros (k' & [<- | Hin] & Hf); [congruence | exists k'; auto].
    + split; [| reflexivity]. intros _. exists k. auto.
Qed.

Lemma is_field_cases (k : string) :
  AircraftParams.is_field k = true ->
  In k AircraftParams.field_names.
Proof.
  unfold AircraftParams.is_field. intros H.
  apply existsb_exists in H. destruct H as (k' & Hin & Heq).
  apply String.eqb_eq in Heq. now subst k'.
Qed.

Ltac each_field H :=
  cbn [In AircraftParams.field_names] in H;
  repeat (destruct H as [H | H]; [symmetry in H; subst |]);
  [.. | destruct H].

(** A keyword that the constructor is given is the value of its field. *)
Lemma getattr_new_present (d : dict) (p' : AircraftParams.t) (k : string) (v : R) :
  AircraftParams.new d = AircraftParams.Constructed p' ->
  AircraftParams.is_field k = true ->
  dict_get k d = Some v ->
  AircraftParams.getattr k p' = Some v.
Proof.
  intros Hnew Hfield Hget. unfold AircraftParams.new in Hnew.
  destruct (forallb _ d); [| discriminate].
  injection Hnew as <-.
  apply is_field_cases in Hfield.
  each_field Hfield; cbn; unfold kwarg; rewrite Hget; reflexivity.
Qed.

Lemma getattr_not_field (p : AircraftParams.t) (k : string) :
  AircraftParams.is_field k = false -> AircraftParams.getattr k p = None.
Proof.
  unfold AircraftParams.is_field, AircraftParams.field_names.
  cbn [existsb]. rewrite !Bool.orb_false_iff.
  intros (H1 & H2 & H3 & H4 & H5 & H6 & H7 & H8 & H9 & H10 & H11 & _).
  unfold AircraftParams.getattr.
  now rewrite H1, H2, H3, H4, H5, H6, H7, H8, H9, H10, H11.
Qed.

(** The dictionary that [copy_with] starts from holds each field under
    its name. *)
Lemma dict_get_fields (self : AircraftParams.t) (k : string) :
  AircraftParams.is_field k = true ->
  dict_get k
    [("mass_kg", AircraftParams.mass_kg self);
     ("wing_area_m2", AircraftParams.wing_area_m2 self);
     ("aspect_ratio", AircraftParams.aspect_ratio self);
     ("cl_alpha", AircraftParams.cl_alpha self);
     ("cd0", AircraftParams.cd0 self);
     ("oswald_efficiency", AircraftParams.oswald_efficiency self);
     ("max_thrust_N", AircraftParams.max_thrust_N self);
     ("thrust_ratio", AircraftParams.thrust_ratio self);
     ("altitude_m", AircraftParams.altitude_m self);
     ("airspeed_m_s", AircraftParams.airspeed_m_s self);
     ("angle_of_attack_deg", AircraftParams.angle_of_attack_deg self)]%string
  = AircraftParams.getattr k self.
Proof.
  intros Hfield. apply is_field_cases in Hfield.
  each_field Hfield; reflexivity.
Qed.

Lemma getattr_field (self : AircraftParams.t) (k : string) :
  AircraftParams.is_field k = true ->
  exists v, AircraftParams.getattr k self = Some v.
Proof.
  intros Hfield. apply is_field_cases in Hfield.
  each_field Hfield; eexists; reflexivity.
Qed.

(** Without overrides [copy_with] gives a record equal to the original. *)
Theorem copy_with_no_overrides (self : AircraftParams.t) :
  AircraftParams.copy_with self [] = AircraftParams.Constructed self.
Proof. destruct self. reflexivity. Qed.

Lemma copy_with_TypeError_helper (self : AircraftParams.t) (kwargs : dict) :
  (exists k, In k (map fst kwargs) /\ AircraftParams.is_field k = false) <->
  AircraftParams.copy_with self kwargs = AircraftParams.TypeError.
Proof.
  unfold AircraftParams.copy_with. cbv zeta. unfold AircraftParams.new.
  rewrite (forallb_dict_update AircraftParams.is_field).
  rewrite <- (forallb_false_exists AircraftParams.is_field kwargs).
  cbn [forallb fst].
  change (AircraftParams.is_field "mass_kg") with true.
  cbn [andb].
  destruct (forallb (fun kv => AircraftParams.is_field (fst kv)) kwargs).
  - split; discriminate.
  - split; reflexivity.
Qed.

(** [copy_with] fails, with the [TypeError] of the constructor, exactly
    when one of the keywords is not the name of a field. *)
Theorem copy_with_TypeError_iff (self : AircraftParams.t) (kwargs : dict) :
  AircraftParams.copy_with self kwargs = AircraftParams.TypeError
  <-> exists k, In k (map fst kwargs) /\ AircraftParams.is_field k = false.
Proof. symmetry. apply copy_with_TypeError_helper. Qed.

Lemma copy_with_TypeError_iff_witness :
  AircraftParams.copy_with AircraftParams.default [("wingspan"%string, 10)]
  = AircraftParams.TypeError.
Proof.
  apply (proj2 (copy_with_TypeError_iff AircraftParams.default
                  [("wingspan"%string, 10)])).
  exists "wingspan"%string. split; [left; reflexivity | reflexivity].
Defined.

(** When [copy_with] returns, every field named by a keyword holds the
    keyword's value and every other field holds the value it has in the
    original. *)
Theorem copy_with_fields
  (self : AircraftParams.t) (kwargs : dict) (p' : AircraftParams.t) :
  NoDup (map fst kwargs) ->
  AircraftParams.copy_with self kwargs = AircraftParams.Constructed p' ->
  (forall k v, In (k, v) kwargs -> AircraftParams.getattr k p' = Some v)
  /\ (forall k, ~ In k (map fst kwargs) ->
        AircraftParams.getattr k p' = AircraftParams.getattr k self).
Proof.
  intros Hnodup Hcopy.
  assert (Hkeys : forall k, In k (map fst kwargs) ->
                            AircraftParams.is_field k = true).
  { intros k Hin. destruct (AircraftParams.is_field k) eqn:E; [reflexivity |].
    assert (Herr : AircraftParams.copy_with self kwargs
                   = AircraftParams.TypeError).
    { apply copy_with_TypeError_helper. now exists k. }
    rewrite Herr in Hcopy. discriminate. }
  unfold AircraftParams.copy_with in Hcopy. cbv zeta in Hcopy.
  split.
  - intros k v Hin.
    apply (getattr_new_present _ _ _ _ Hcopy).
    + apply Hkeys. change k with (fst (k, v)). now apply in_map.
    + now apply dict_get_update_in.
  - intros k Hnotin.
    destruct (AircraftParams.is_field k) eqn:E.
    + destruct (getattr_field self k E) as (v & Hv). rewrite Hv.
      apply (getattr_new_present _ _ _ _ Hcopy E).
      rewrite dict_get_update_notin by exact Hnotin.
      now rewrite dict_get_fields.
    + now rewrite !getattr_not_field.
Qed.

Lemma copy_with_fields_witness :
  exists p',
    AircraftParams.copy_with AircraftParams.default
      [("thrust_ratio"%string, 0.7); ("altitude_m"%string, 5000)]
    = AircraftParams.Constructed p'
    /\ AircraftParams.getattr "thrust_ratio" p' = Some 0.7
    /\ AircraftParams.getattr "mass_kg" p'
       = AircraftParams.getattr "mass_kg" AircraftParams.default.
Proof.
  assert (Hcopy :
            AircraftParams.copy_with AircraftParams.default
              [("thrust_ratio"%string, 0.7); ("altitude_m"%string, 5000)]
            = AircraftParams.Constructed
                (AircraftParams.set_altitude_m 5000
                   (AircraftParams.set_thrust_ratio 0.7
                      AircraftParams.default)))
    by reflexivity.
  assert (Hnodup :
            NoDup (map fst [("thrust_ratio"%string, 0.7);
                            ("altitude_m"%string, 5000)])).
  { cbn. repeat constructor; cbn; intuition discriminate. }
  destruct (copy_with_fields _ _ _ Hnodup Hcopy) as (Hin & Hout).
  eexists. split; [exact Hcopy | split].
  - apply Hin. left. reflexivity.
  - apply Hout. cbn. intuition discriminate.
Defined.

(** ** run_simulation.py: the thrust of the summary *)

(** The summary prints [max_thrust_N * thrust_ratio] as the current
    thrust.  It is the thrust the simulation uses when the throttle lies
    in [0, 1] or the maximum thrust is zero.  Outside, the simulation
    clamps and the summary does not: with a maximum thrust that is not
    negative the summary is at or above the simulated thrust for a
    throttle of 1 or more, and at or below it for a throttle of 0 or
    less. *)
Theorem main_thrust_current_vs_simulated (p : AircraftParams.t) :
  (AircraftParams.max_thrust_N p = 0
   \/ 0 <= AircraftParams.thrust_ratio p <= 1 ->
   main_thrust_current p = compute_thrust p)
  /\ (0 <= AircraftParams.max_thrust_N p ->
      1 <= AircraftParams.thrust_ratio p ->
      compute_thrust p <= main_thrust_current p)
  /\ (0 <= AircraftParams.max_thrust_N p ->
      AircraftParams.thrust_ratio p <= 0 ->
      main_thrust_current p <= compute_thrust p).
Proof.
  unfold main_thrust_current, compute_thrust.
  rewrite py_max_Rmax, py_min_Rmin.
  set (m := AircraftParams.max_thrust_N p).
  set (r := AircraftParams.thrust_ratio p).
  split; [| split].
  - intros [Hm | [H0 H1]].
    + rewrite Hm. lra.
    + rewrite Rmin_left by lra. rewrite Rmax_right by lra. reflexivity.
  - intros Hm Hr. rewrite Rmin_right by lra. rewrite Rmax_right by lra. nra.
  - intros Hm Hr. rewrite Rmin_left by lra. rewrite Rmax_left by lra. nra.
Qed.

Lemma main_thrust_current_vs_simulated_witness :
  main_thrust_current AircraftParams.default
  = compute_thrust AircraftParams.default
  /\ compute_thrust (AircraftParams.set_thrust_ratio 1.5 AircraftParams.default)
     <= main_thrust_current
          (AircraftParams.set_thrust_ratio 1.5 AircraftParams.default)
  /\ main_thrust_current
       (AircraftParams.set_thrust_ratio (-0.2) AircraftParams.default)
     <= compute_thrust
          (AircraftParams.set_thrust_ratio (-0.2) AircraftParams.default).
Proof.
  split; [| split].
  - apply (proj1 (main_thrust_current_vs_simulated AircraftParams.default)).
    right. cbn. lra.
  - apply (proj1 (proj2 (main_thrust_current_vs_simulated
                           (AircraftParams.set_thrust_ratio 1.5
                              AircraftParams.default)))); cbn; lra.
  - apply (proj2 (proj2 (main_thrust_current_vs_simulated
                           (AircraftParams.set_thrust_ratio (-0.2)
                              AircraftParams.default)))); cbn; lra.
Defined.
